(** * SQL conversational interface: the question-to-insight pipeline

    A shallow embedding of [backend/app.py]: the [SQLAgent] class
    (schema analysis, query generation, query execution, result
    summarising, insight generation) and the [/api/ask] handler.

    The program talks to three outside parties: the SQLite store (through
    [sqlite3] and [pandas.read_sql_query]), the completion service
    ([openai.Completion.create]) and the clock.  They are modelled as
    oracles of an environment; every interaction is recorded in the
    history carried by the world, and Python exceptions are an explicit
    outcome of the computation monad. *)

From Stdlib Require Import String Ascii List ZArith QArith Bool Arith Lia.
From Stdlib Require Import DecimalString.
Import ListNotations.
Local Close Scope Q_scope.
Local Open Scope list_scope.
Local Open Scope string_scope.

Set Warnings "-register-all".

(** ** Text *)

(** The line feed character.  A Python literal written [\\n] in the source
    is NOT this character: it is a backslash followed by the letter n, which
    is what the Rocq literal ["\n"] denotes as well. *)
Definition LF : string := String (ascii_of_nat 10) EmptyString.

(** Python's [str(n)] for a non-negative machine-independent integer. *)
Definition str_of_nat (n : nat) : string :=
  NilEmpty.string_of_uint (Nat.to_uint n).

(** A Python [str] is kept as the bytes of its UTF-8 encoding: a character
    below 128 is one byte, any other character two to four bytes.
    Concatenation, equality and emptiness are the same on the bytes as on
    the characters; only stripping has to look at whole characters.

    The white space of [str.strip()] and [str.isspace()] is: TAB, LF, VT,
    FF, CR, FS, GS, RS, US and the space (one byte each); U+0085 and U+00A0
    (two bytes, C2 85 and C2 A0); U+1680 (E1 9A 80), U+2000 to U+200A
    (E2 80 80 to E2 80 8A), U+2028, U+2029, U+202F (E2 80 A8, E2 80 A9,
    E2 80 AF), U+205F (E2 81 9F) and U+3000 (E3 80 80).  In well-formed
    UTF-8 none of these byte sequences occurs inside another character. *)
Definition space1 (a : nat) : bool :=
  ((9 <=? a)%nat && (a <=? 13)%nat) || ((28 <=? a)%nat && (a <=? 32)%nat).

Definition space2 (a b : nat) : bool :=
  (a =? 194)%nat && ((b =? 133)%nat || (b =? 160)%nat).

Definition space3 (a b c : nat) : bool :=
  ((a =? 225)%nat && (b =? 154)%nat && (c =? 128)%nat)
  || ((a =? 226)%nat && (b =? 128)%nat
      && (((128 <=? c)%nat && (c <=? 138)%nat)
          || (c =? 168)%nat || (c =? 169)%nat || (c =? 175)%nat))
  || ((a =? 226)%nat && (b =? 129)%nat && (c =? 159)%nat)
  || ((a =? 227)%nat && (b =? 128)%nat && (c =? 128)%nat).

(** The rest of a text after its first character, when that character is
    white space. *)
Definition drop_space (s : string) : option string :=
  match s with
  | EmptyString => None
  | String c1 s1 =>
      if space1 (nat_of_ascii c1) then Some s1
      else
        match s1 with
        | EmptyString => None
        | String c2 s2 =>
            if space2 (nat_of_ascii c1) (nat_of_ascii c2) then Some s2
            else
              match s2 with
              | EmptyString => None
              | String c3 s3 =>
                  if space3 (nat_of_ascii c1) (nat_of_ascii c2)
                            (nat_of_ascii c3)
                  then Some s3 else None
              end
        end
  end.

(** [str.lstrip()]: drops white space characters while the text starts
    with one. *)
Fixpoint lstrip (s : string) : string :=
  match s with
  | EmptyString => EmptyString
  | String c1 s1 =>
      if space1 (nat_of_ascii c1) then lstrip s1
      else
        match s1 with
        | EmptyString => s
        | String c2 s2 =>
            if space2 (nat_of_ascii c1) (nat_of_ascii c2) then lstrip s2
            else
              match s2 with
              | EmptyString => s
              | String c3 s3 =>
                  if space3 (nat_of_ascii c1) (nat_of_ascii c2)
                            (nat_of_ascii c3)
                  then lstrip s3 else s
              end
        end
  end.

(** A text of white space characters only ([""] included). *)
Definition all_space (s : string) : bool :=
  match lstrip s with
  | EmptyString => true
  | String _ _ => false
  end.

(** [str.rstrip()]: cuts the text where what follows is white space only. *)
Fixpoint rstrip (s : string) : string :=
  match s with
  | EmptyString => EmptyString
  | String c s' => if all_space s then EmptyString else String c (rstrip s')
  end.

(** [str.strip()] with no argument. *)
Definition strip (s : string) : string := rstrip (lstrip s).

(** One white space character, and a text that starts with one. *)
Definition is_space_char (s : string) : Prop := drop_space s = Some "".

Definition starts_with_space (s : string) : bool :=
  match drop_space s with
  | Some _ => true
  | None => false
  end.

(** U+00A0 NO-BREAK SPACE and U+2003 EM SPACE, encoded. *)
Definition NBSP : string :=
  String (ascii_of_nat 194) (String (ascii_of_nat 160) EmptyString).

Definition EM_SPACE : string :=
  String (ascii_of_nat 226)
    (String (ascii_of_nat 128) (String (ascii_of_nat 131) EmptyString)).

(** The white space characters of Python, each as its UTF-8 bytes. *)
Definition utf8 (bytes : list nat) : string :=
  string_of_list_ascii (map ascii_of_nat bytes).

Definition whitespace : list string :=
  map utf8
      [ [9]; [10]; [11]; [12]; [13]; [28]; [29]; [30]; [31]; [32];
        [194; 133]; [194; 160];
        [225; 154; 128];
        [226; 128; 128]; [226; 128; 129]; [226; 128; 130]; [226; 128; 131];
        [226; 128; 132]; [226; 128; 133]; [226; 128; 134]; [226; 128; 135];
        [226; 128; 136]; [226; 128; 137]; [226; 128; 138];
        [226; 128; 168]; [226; 128; 169]; [226; 128; 175];
        [226; 129; 159];
        [227; 128; 128] ].

(** A text that is a sequence of white space characters ([""] included). *)
Definition blank (s : string) : Prop :=
  exists chars,
    Forall (fun c => In c whitespace) chars /\ s = String.concat "" chars.

(** What [str.strip()] promises: [trimmed] is [text] without a run of white
    space at each end, and neither starts nor ends with a white space
    character. *)
Definition trimmed_of (text trimmed : string) : Prop :=
  (exists pre post, text = pre ++ trimmed ++ post /\ blank pre /\ blank post)
  /\ (forall c rest, In c whitespace -> trimmed <> c ++ rest)
  /\ (forall rest c, In c whitespace -> trimmed <> rest ++ c).

(** Python truthiness of a string: [not s] holds exactly for the empty one. *)
Definition str_truthy (s : string) : bool :=
  match s with EmptyString => false | _ => true end.

(** ** Values *)

(** A scalar as SQLite hands it to Python.  A float is kept as its IEEE-754
    binary64 bit pattern; no arithmetic is done on it here. *)
Inductive value : Type :=
| VNone
| VInt (z : Z)
| VFloat (bits : Z)
| VStr (s : string)
| VBytes (b : list ascii).

(** The quiet NaN pandas uses for a missing cell. *)
Definition NaN : value := VFloat 0x7ff8000000000000.

(** A Python [dict] with string keys: insertion ordered, keys unique.
    Assigning to an existing key keeps its position and replaces its value. *)
Definition pydict (V : Type) : Type := list (string * V).

Fixpoint dict_set {V} (k : string) (v : V) (d : pydict V) : pydict V :=
  match d with
  | [] => [(k, v)]
  | (k', v') :: d' =>
      if String.eqb k k' then (k, v) :: d' else (k', v') :: dict_set k v d'
  end.

Fixpoint dict_get {V} (k : string) (d : pydict V) : option V :=
  match d with
  | [] => None
  | (k', v') :: d' => if String.eqb k k' then Some v' else dict_get k d'
  end.

Definition keys {V} (d : pydict V) : list string := map fst d.

(** Adding a label to a list of distinct labels: a known label keeps its
    place, a new one goes last. *)
Definition add_label (cols : list string) (k : string) : list string :=
  if existsb (String.eqb k) cols then cols else (cols ++ [k])%list.

(** The distinct labels of a list, each at its first appearance. *)
Definition distinct_labels (labels : list string) : list string :=
  fold_left add_label labels [].

(** [dict(pairs)]: later pairs overwrite earlier ones with the same key. *)
Definition dict_of_pairs {V} (ps : list (string * V)) : pydict V :=
  fold_left (fun d kv => dict_set (fst kv) (snd kv) d) ps [].

(** A result row as [to_dict('records')] yields it. *)
Definition record : Type := pydict value.

(** A pandas [DataFrame]: column labels (duplicates allowed, as SQL allows
    them), a number of rows, and the cell at a row and column position. *)
Record DataFrame : Type := {
  df_columns : list string;
  df_len : nat;
  df_cell : nat -> nat -> value
}.

Definition df_row (df : DataFrame) (r : nat) : list value :=
  map (df_cell df r) (seq 0 (length (df_columns df))).

(** [df.to_dict('records')]: one [dict(zip(columns, row))] per row. *)
Definition to_dict_records (df : DataFrame) : list record :=
  map (fun r => dict_of_pairs (combine (df_columns df) (df_row df r)))
      (seq 0 (df_len df)).

(** ** Exceptions, events and the world *)

(** A caught Python exception; [exn_msg] is what [str(e)] gives. *)
Record Exn : Type := { exn_msg : string }.

Inductive Result (A : Type) : Type :=
| Ok (a : A)
| Raise (e : Exn).
Arguments Ok {A} a.
Arguments Raise {A} e.

(** The arguments of one [openai.Completion.create] call. *)
Record CompletionRequest : Type := {
  engine : string;
  prompt : string;
  max_tokens : nat;
  temperature : Q;
  stop : option (list string)
}.

(** The response object: the texts of [response.choices]. *)
Record Completion : Type := { choices : list string }.

Inductive Component : Type :=
| QueryGenerator | QueryExecutor | ResultSummarizer | InsightComposer.

Inductive Event : Type :=
| EvConnect (path : string) (conn : nat)   (* sqlite3.connect returned *)
| EvConnectFailed (path : string)
| EvClose (conn : nat)                     (* conn.close() *)
| EvSql (conn : nat) (sql : string)        (* a statement sent to the store *)
| EvCompletion (req : CompletionRequest)   (* openai.Completion.create *)
| EvPrint (msg : string)
| EvNow
| EvEnter (c : Component).                 (* ghost: a method was entered *)

(** The mutable part of the process: what happened so far (newest first),
    the connections that are open, and the next connection handle. *)
Record World : Type := {
  history : list Event;
  open_conns : list nat;
  next_conn : nat
}.

Definition world0 : World :=
  {| history := []; open_conns := []; next_conn := 0 |}.

(** One row of [PRAGMA table_info]: (cid, name, type, notnull, dflt_value, pk). *)
Record PragmaRow : Type := {
  cid : Z;
  pr_name : string;
  pr_type : string;
  notnull : Z;
  dflt_value : value;
  pk : Z
}.

(** The outside parties.  Each oracle sees the history, so the store and
    the service may answer the same request differently at different times.
    The three cursor oracles stand for [cursor.execute(sql)] followed by
    [cursor.fetchall()] and give the rows in the shape SQLite documents for
    the statement: the [name] column of [sqlite_master] (the [row[0]] of each
    row), the rows of [PRAGMA table_info], and plain tuples of cells.  A
    store that cannot deliver this shape is one whose oracle raises.
    [read_sql_query] is [pandas.read_sql_query]. *)
Record Env : Type := {
  sqlite_connect : list Event -> string -> option Exn;
  sqlite_master : list Event -> string -> Result (list string);
  sqlite_table_info : list Event -> string -> Result (list PragmaRow);
  sqlite_fetchall : list Event -> string -> Result (list (list value));
  read_sql_query : list Event -> string -> Result DataFrame;
  completion_create : list Event -> CompletionRequest -> Result Completion;
  now_isoformat : list Event -> string
}.

(** ** The computation monad: state passing with exceptions.
    Effects made before an exception is raised stay in the world. *)
Definition M (A : Type) : Type := World -> Result A * World.

Definition ret {A} (a : A) : M A := fun w => (Ok a, w).

Definition raise {A} (e : Exn) : M A := fun w => (Raise e, w).

Definition bind {A B} (c : M A) (k : A -> M B) : M B :=
  fun w =>
    match c w with
    | (Ok a, w') => k a w'
    | (Raise e, w') => (Raise e, w')
    end.

(** [try: c  except Exception as e: h e] *)
Definition try_except {A} (c : M A) (h : Exn -> M A) : M A :=
  fun w =>
    match c w with
    | (Ok a, w') => (Ok a, w')
    | (Raise e, w') => h e w'
    end.

Declare Scope py_scope.
Delimit Scope py_scope with py.
Notation "x <- c ;; k" := (bind c (fun x => k))
  (at level 61, c at next level, right associativity) : py_scope.
Notation "c ;; k" := (bind c (fun _ => k))
  (at level 61, right associativity) : py_scope.
Local Open Scope py_scope.

Definition emit (ev : Event) : M unit :=
  fun w => (Ok tt, {| history := ev :: history w;
                      open_conns := open_conns w;
                      next_conn := next_conn w |}).

Definition lift_result {A} (r : Result A) : M A :=
  fun w => (r, w).

Definition remove_conn (c : nat) (l : list nat) : list nat :=
  filter (fun c' => negb (Nat.eqb c c')) l.

Section Primitives.
Variable env : Env.

(** [sqlite3.connect(path)] *)
Definition connect (path : string) : M nat :=
  fun w =>
    match sqlite_connect env (history w) path with
    | Some e =>
        (Raise e, {| history := EvConnectFailed path :: history w;
                     open_conns := open_conns w;
                     next_conn := next_conn w |})
    | None =>
        let c := next_conn w in
        (Ok c, {| history := EvConnect path c :: history w;
                  open_conns := c :: open_conns w;
                  next_conn := S c |})
    end.

(** [conn.close()] *)
Definition close (c : nat) : M unit :=
  fun w => (Ok tt, {| history := EvClose c :: history w;
                      open_conns := remove_conn c (open_conns w);
                      next_conn := next_conn w |}).

(** A statement sent over connection [c], answered by [oracle]. *)
Definition query {A} (oracle : list Event -> string -> Result A)
           (c : nat) (sql : string) : M A :=
  fun w =>
    (oracle (history w) sql,
     {| history := EvSql c sql :: history w;
        open_conns := open_conns w;
        next_conn := next_conn w |}).

(** [openai.Completion.create(...)] *)
Definition Completion_create (req : CompletionRequest) : M Completion :=
  fun w =>
    (completion_create env (history w) req,
     {| history := EvCompletion req :: history w;
        open_conns := open_conns w;
        next_conn := next_conn w |}).

(** [datetime.now().isoformat()] *)
Definition now : M string :=
  fun w =>
    (Ok (now_isoformat env (history w)),
     {| history := EvNow :: history w;
        open_conns := open_conns w;
        next_conn := next_conn w |}).

(** [print(msg)] *)
Definition py_print (msg : string) : M unit := emit (EvPrint msg).
End Primitives.

(** [xs[0]] on a list. *)
Definition index0 {A} (xs : list A) : M A :=
  match xs with
  | x :: _ => ret x
  | [] => raise {| exn_msg := "list index out of range" |}
  end.

(** ** The data model of the pipeline *)

(** One entry of [schema[table]['columns']]. *)
Record ColumnInfo : Type := {
  col_name : string;
  col_type : string;
  nullable : bool
}.

(** [schema[table]]. *)
Record TableInfo : Type := {
  tbl_columns : list ColumnInfo;
  sample_data : list (list value)
}.

(** [schema_info]: a dict from table name to its description. *)
Definition Schema : Type := pydict TableInfo.

(** The dict [execute_query] returns.  The key ['error'] exists only in the
    failure dict, hence the option. *)
Record QueryResult : Type := {
  success : bool;
  error : option string;
  data : list record;
  columns : list string;
  row_count : nat
}.

(** A parsed JSON value, as [request.get_json()] returns it. *)
Inductive JValue : Type :=
| JNull
| JBool (b : bool)
| JNum (z : Z)
| JFloat (bits : Z)
| JStr (s : string)
| JArr (xs : list JValue)
| JObj (kvs : list (string * JValue)).

(** Python truthiness, the test behind [if not question]. *)
Definition truthy (v : JValue) : bool :=
  match v with
  | JNull => false
  | JBool b => b
  | JNum z => negb (Z.eqb z 0)
  | JFloat bits => negb (Z.eqb bits 0 || Z.eqb bits 0x8000000000000000)
  | JStr s => str_truthy s
  | JArr xs => match xs with [] => false | _ => true end
  | JObj kvs => match kvs with [] => false | _ => true end
  end.

Definition py_type_name (v : JValue) : string :=
  match v with
  | JNull => "NoneType"
  | JBool _ => "bool"
  | JNum _ => "int"
  | JFloat _ => "float"
  | JStr _ => "str"
  | JArr _ => "list"
  | JObj _ => "dict"
  end.

(** [data.get(key, default)]: only a dict has the method. *)
Definition py_get (d : JValue) (key : string) (default : JValue) : M JValue :=
  match d with
  | JObj kvs =>
      ret (match dict_get key kvs with Some v => v | None => default end)
  | _ =>
      raise {| exn_msg := "'" ++ py_type_name d
                          ++ "' object has no attribute 'get'" |}
  end.

(** What [jsonify] is given, and the HTTP status that goes with it. *)
Inductive Body : Type :=
| ErrorBody (err : string)
| AnswerBody (question : JValue) (sql_query : string)
             (results : QueryResult) (insights : string) (timestamp : string).

Record Response : Type := {
  body : Body;
  status : nat
}.

(** The request as the handler sees it: [request.get_json()] either raises
    (wrong content type, unparsable body) or returns the parsed value. *)
Record Request : Type := { get_json : Result JValue }.

(** The pure functions of Python's and pandas' run time that the program
    calls and whose results only appear inside rendered text. *)
Record PyLib : Type := {
  (** [str(t)] of a sample row tuple *)
  str_tuple : list value -> string;
  (** [str(x)] of a question that is not a string *)
  str_json : JValue -> string;
  (** whether pandas gives a column of these cells a numeric dtype,
      the test of [select_dtypes(include=['number'])] *)
  is_number_dtype : list value -> bool;
  (** [Series.min()], [Series.max()] and [str] of their result *)
  series_min : list value -> value;
  series_max : list value -> value;
  str_scalar : value -> string;
  (** [Series.mean()] as float bits, and [format(x, spec)] *)
  series_mean : list value -> Z;
  format_float : string -> Z -> string
}.

(** [f"{question}"] *)
Definition fstr (lib : PyLib) (q : JValue) : string :=
  match q with
  | JStr s => s
  | _ => str_json lib q
  end.

(** Monadic left fold: a [for] loop whose body may raise. *)
Fixpoint for_each {A S} (xs : list A) (body : S -> A -> M S) (s : S) : M S :=
  match xs with
  | [] => ret s
  | x :: xs' => bind (body s x) (for_each xs' body)
  end.

(** ** The agent: [class SQLAgent] *)

Module SQLAgent.

(** The instance state set by [__init__]. *)
Record Agent : Type := {
  db_path : string;
  schema_info : Schema
}.

Section Methods.
Variable lib : PyLib.
Variable env : Env.

(** The dict entry built for one table from the two result sets. *)
Definition column_info (col : PragmaRow) : ColumnInfo :=
  {| col_name := pr_name col;
     col_type := pr_type col;
     nullable := Z.eqb (notnull col) 0 |}.

Definition table_info (columns : list PragmaRow)
           (sample : list (list value)) : TableInfo :=
  {| tbl_columns := map column_info columns;
     sample_data := match sample with
                    | [] => []
                    | _ => firstn 3 sample
                    end |}.

(** The body of the [for table in tables] loop of [_analyze_schema]. *)
Definition analyze_table (conn : nat) (schema : Schema) (table : string)
  : M Schema :=
  columns <- query (sqlite_table_info env) conn
               ("PRAGMA table_info(" ++ table ++ ")") ;;
  sample <- query (sqlite_fetchall env) conn
               ("SELECT * FROM " ++ table ++ " LIMIT 5") ;;
  ret (dict_set table (table_info columns sample) schema).

(** The [try] block of [_analyze_schema]. *)
Definition analyze_schema_try (path : string) : M Schema :=
  conn <- connect env path ;;
  tables <- query (sqlite_master env) conn
              "SELECT name FROM sqlite_master WHERE type='table';" ;;
  schema <- for_each tables (analyze_table conn) [] ;;
  close conn ;;
  ret schema.

Definition _analyze_schema (path : string) : M Schema :=
  try_except (analyze_schema_try path)
    (fun e =>
       py_print ("Error analyzing schema: " ++ exn_msg e) ;;
       ret []).

(** [DATABASE_PATH] depends on where the module file lies; it is an
    argument here. *)
Definition __init__ (DATABASE_PATH : string) : M Agent :=
  schema <- _analyze_schema DATABASE_PATH ;;
  ret {| db_path := DATABASE_PATH; schema_info := schema |}.

(** What one pass of the outer loop of [_format_schema_for_prompt]
    appends to [schema_text]. *)
Definition format_column (schema_text : string) (col : ColumnInfo)
  : string :=
  schema_text ++ "  - " ++ col_name col ++ " (" ++ col_type col ++ ")\n".

Definition format_table (schema_text : string)
           (entry : string * TableInfo) : string :=
  let (table, info) := entry in
  let schema_text := schema_text ++ "\nTable: " ++ table ++ "\n" in
  let schema_text := fold_left format_column (tbl_columns info) schema_text in
  match sample_data info with
  | [] => schema_text
  | row0 :: _ =>
      schema_text ++ "  Sample data: " ++ str_tuple lib row0 ++ "\n"
  end.

Definition _format_schema_for_prompt (self : Agent) : string :=
  fold_left format_table (schema_info self) "".

(** The f-string of [generate_sql_query]. *)
Definition sql_prompt (schema_context question : string) : string :=
  LF ++
  "        You are an expert SQL analyst. Given the following database schema and a business question, " ++ LF ++
  "        generate an appropriate SQL query." ++ LF ++
  "        " ++ LF ++
  "        Database Schema:" ++ LF ++
  "        " ++ schema_context ++ LF ++
  "        " ++ LF ++
  "        Business Question: " ++ question ++ LF ++
  "        " ++ LF ++
  "        Important guidelines:" ++ LF ++
  "        1. Handle cases where column names might be unclear or abbreviated" ++ LF ++
  "        2. Use appropriate JOINs when data spans multiple tables" ++ LF ++
  "        3. Apply proper filtering and aggregation" ++ LF ++
  "        4. Consider data quality issues (nulls, duplicates, inconsistent formats)" ++ LF ++
  "        5. Return only the SQL query, no explanations" ++ LF ++
  "        " ++ LF ++
  "        SQL Query:" ++ LF ++
  "        ".

Definition sql_request (self : Agent) (question : JValue)
  : CompletionRequest :=
  {| engine := "text-davinci-003";
     prompt := sql_prompt (_format_schema_for_prompt self)
                          (fstr lib question);
     max_tokens := 500;
     temperature := (1 # 10)%Q;
     stop := Some ["\n\n"] |}.

(** Returns [Some text], or [None] for Python's [None]. *)
Definition generate_sql_query (self : Agent) (question : JValue)
  : M (option string) :=
  emit (EvEnter QueryGenerator) ;;
  try_except
    (response <- Completion_create env (sql_request self question) ;;
     choice0 <- index0 (choices response) ;;
     let sql_query := strip choice0 in
     ret (Some sql_query))
    (fun e =>
       py_print ("Error generating SQL: " ++ exn_msg e) ;;
       ret None).

Definition execute_query (self : Agent) (sql_query : string)
  : M QueryResult :=
  emit (EvEnter QueryExecutor) ;;
  try_except
    (conn <- connect env (db_path self) ;;
     df <- query (read_sql_query env) conn sql_query ;;
     close conn ;;
     ret {| success := true;
            error := None;
            data := to_dict_records df;
            columns := df_columns df;
            row_count := df_len df |})
    (fun e =>
       ret {| success := false;
              error := Some (exn_msg e);
              data := [];
              columns := [];
              row_count := 0 |}).

(** [pd.DataFrame(data).columns] for a list of dicts: the keys of all
    records, each at its first appearance. *)
Definition frame_columns (data : list record) : list string :=
  fold_left (fun cols rec => fold_left add_label (keys rec) cols) data [].

(** [df[col]]: the cells of one column, NaN where a record lacks the key. *)
Definition frame_column (data : list record) (col : string) : list value :=
  map (fun rec => match dict_get col rec with
                  | Some v => v
                  | None => NaN
                  end) data.

(** [df.select_dtypes(include=['number']).columns] *)
Definition numeric_cols (data : list record) : list string :=
  filter (fun col => is_number_dtype lib (frame_column data col))
         (frame_columns data).

(** One pass of the statistics loop of [_summarize_data]. *)
Definition stat_line (data : list record) (col : string) : string :=
  let series := frame_column data col in
  col ++ ": min=" ++ str_scalar lib (series_min lib series)
      ++ ", max=" ++ str_scalar lib (series_max lib series)
      ++ ", avg=" ++ format_float lib ".2f" (series_mean lib series)
      ++ "\n".

Definition _summarize_data (data : list record) : string :=
  match data with
  | [] => "No data returned"
  | first :: _ =>
      let summary :=
        "Dataset contains " ++ str_of_nat (length data) ++ " records\n" in
      let columns := keys first in
      let summary :=
        summary ++ "Columns: " ++ String.concat ", " columns ++ "\n" in
      let numeric := numeric_cols data in
      if (0 <? length numeric)%nat then
        fold_left (fun summary col => summary ++ stat_line data col)
                  (firstn 3 numeric)
                  (summary ++ "\nNumeric summaries:\n")
      else summary
  end.

(** The f-string of [generate_insights]. *)
Definition insight_prompt (question data_summary : string) : string :=
  LF ++
  "        Based on the following business question and data analysis results, provide a comprehensive " ++ LF ++
  "        natural language answer with key insights." ++ LF ++
  "        " ++ LF ++
  "        Question: " ++ question ++ LF ++
  "        " ++ LF ++
  "        Data Summary:" ++ LF ++
  "        " ++ data_summary ++ LF ++
  "        " ++ LF ++
  "        Provide a clear, business-focused answer that:" ++ LF ++
  "        1. Directly answers the question" ++ LF ++
  "        2. Highlights key findings and trends" ++ LF ++
  "        3. Provides actionable insights" ++ LF ++
  "        4. Mentions any data quality concerns if relevant" ++ LF ++
  "        " ++ LF ++
  "        Answer:" ++ LF ++
  "        ".

Definition insight_request (question : JValue) (data_summary : string)
  : CompletionRequest :=
  {| engine := "text-davinci-003";
     prompt := insight_prompt (fstr lib question) data_summary;
     max_tokens := 800;
     temperature := (3 # 10)%Q;
     stop := None |}.

Definition error_insight : string :=
  "I encountered an error while analyzing the data. Please try rephrasing your question.".

Definition degraded_insight (n : nat) : string :=
  "Analysis completed, but I couldn't generate detailed insights. Raw results: "
  ++ str_of_nat n ++ " records found.".

Definition generate_insights (question : JValue)
           (query_results : QueryResult) : M string :=
  emit (EvEnter InsightComposer) ;;
  if negb (success query_results) then ret error_insight
  else
    emit (EvEnter ResultSummarizer) ;;
    let data_summary := _summarize_data (data query_results) in
    try_except
      (response <- Completion_create env
                     (insight_request question data_summary) ;;
       choice0 <- index0 (choices response) ;;
       ret (strip choice0))
      (fun e => ret (degraded_insight (length (data query_results)))).

End Methods.
End SQLAgent.

(** ** The handler of [POST /api/ask] *)

(** What [jsonify] can serialize.  Of the cells a result row can hold, a
    [bytes] object (a BLOB) is the one the JSON provider has no encoding
    for; [None], integers, floats (NaN included) and strings are written
    out.  A parsed JSON value, an error text and a timestamp always are. *)
Definition json_serializable_cell (v : value) : bool :=
  match v with
  | VBytes _ => false
  | _ => true
  end.

Definition json_serializable (results : QueryResult) : bool :=
  forallb (fun rec : record =>
             forallb (fun kv => json_serializable_cell (snd kv)) rec)
          (data results).

(** The exception of the JSON provider for a [bytes] cell. *)
Definition not_serializable : Exn :=
  {| exn_msg := "Object of type bytes is not JSON serializable" |}.

(** [jsonify(body)], returned with a status. *)
Definition jsonify (b : Body) (code : nat) : M Response :=
  match b with
  | ErrorBody _ => ret {| body := b; status := code |}
  | AnswerBody _ _ results _ _ =>
      if json_serializable results then ret {| body := b; status := code |}
      else raise not_serializable
  end.

Section Handler.
Variable lib : PyLib.
Variable env : Env.
(** The module-level [sql_agent]. *)
Variable sql_agent : SQLAgent.Agent.

(** [if not sql_query]: [None] and the empty string are both falsy. *)
Definition query_truthy (sql_query : option string) : option string :=
  match sql_query with
  | Some s => if str_truthy s then Some s else None
  | None => None
  end.

Definition ask_question_try (request : Request) : M Response :=
  data <- lift_result (get_json request) ;;
  question <- py_get data "question" (JStr "") ;;
  if negb (truthy question) then
    jsonify (ErrorBody "Question is required") 400
  else
    sql_query <- SQLAgent.generate_sql_query lib env sql_agent question ;;
    match query_truthy sql_query with
    | None => jsonify (ErrorBody "Could not generate SQL query") 500
    | Some sql_query =>
        results <- SQLAgent.execute_query env sql_agent sql_query ;;
        insights <- SQLAgent.generate_insights lib env question results ;;
        timestamp <- now env ;;
        jsonify (AnswerBody question sql_query results insights timestamp)
                200
    end.

Definition ask_question (request : Request) : M Response :=
  try_except (ask_question_try request)
    (fun e => jsonify (ErrorBody ("Server error: " ++ exn_msg e)) 500).
End Handler.

(** ** Observations on worlds and results *)

(** How often a method was entered, and how often the completion service
    and the store were reached, in a history. *)
Definition is_enter (c : Component) (ev : Event) : bool :=
  match ev, c with
  | EvEnter QueryGenerator, QueryGenerator => true
  | EvEnter QueryExecutor, QueryExecutor => true
  | EvEnter ResultSummarizer, ResultSummarizer => true
  | EvEnter InsightComposer, InsightComposer => true
  | _, _ => false
  end.

Definition calls (c : Component) (h : list Event) : nat :=
  length (filter (is_enter c) h).

Definition is_completion (ev : Event) : bool :=
  match ev with EvCompletion _ => true | _ => false end.

Definition completion_calls (h : list Event) : nat :=
  length (filter is_completion h).

Definition is_store (ev : Event) : bool :=
  match ev with
  | EvConnect _ _ | EvConnectFailed _ | EvSql _ _ | EvClose _ => true
  | _ => false
  end.

Definition store_calls (h : list Event) : nat :=
  length (filter is_store h).

(** The invariant of the dict returned by [execute_query]. *)
Definition QueryResult_inv (r : QueryResult) : Prop :=
  if success r then
    error r = None /\
    row_count r = length (data r) /\
    Forall (fun rec : record =>
              (forall c, In c (columns r) <-> In c (keys rec)) /\
              (NoDup (columns r) -> keys rec = columns r))
           (data r)
  else
    data r = [] /\ columns r = [] /\ row_count r = 0 /\
    exists msg, error r = Some msg.

(** The exception, if any, that the [try] block of [execute_query] meets
    when it is entered in world [w]: the one [sqlite3.connect] raises, or
    else the one [pd.read_sql_query] raises. *)
Definition caught_by_executor (env : Env) (self : SQLAgent.Agent)
           (sql_query : string) (w : World) : option Exn :=
  match sqlite_connect env (EvEnter QueryExecutor :: history w)
                       (SQLAgent.db_path self) with
  | Some e => Some e
  | None =>
      match read_sql_query env
              (EvConnect (SQLAgent.db_path self) (next_conn w)
                 :: EvEnter QueryExecutor :: history w) sql_query with
      | Ok _ => None
      | Raise e => Some e
      end
  end.

(** The same with the error text required to be non-empty. *)
Definition QueryResult_inv_nonempty_error (r : QueryResult) : Prop :=
  QueryResult_inv r /\
  (if success r then True
   else exists msg, error r = Some msg /\ msg <> "").

(** ** Scenarios: concrete run time, store and service *)

(** A run time for scenario runs.  It is exact on frames whose columns
    hold integers below 2^53 in size or strings: a column of integers has
    dtype int64 and is numeric, its minimum and maximum are integers, its
    mean is the binary64 number nearest to sum/count, and [format] with
    [.2f] writes a binary64 number with two decimals, rounding its exact
    value to nearest, ties to even.  Columns holding floats or a mix of
    integers and [None] (which pandas makes float64) are outside its
    domain: it calls them non-numeric. *)
Definition is_int (v : value) : bool :=
  match v with VInt _ => true | _ => false end.

Definition int_of (v : value) : Z :=
  match v with VInt z => z | _ => 0%Z end.

(** Division rounded to nearest, ties to even, for [0 <= num], [0 < den]. *)
Definition div_nearest_even (num den : Z) : Z :=
  let q := (num / den)%Z in
  let r := (num mod den)%Z in
  if (den <? 2 * r)%Z then (q + 1)%Z
  else if (2 * r =? den)%Z then (q + q mod 2)%Z
  else q.

(** The bits of the binary64 number nearest to [p/q], for [0 < q] and a
    quotient in the normal range. *)
Definition binary64_of_ratio (p q : Z) : Z :=
  if (p =? 0)%Z then 0%Z
  else
    let sign := if (p <? 0)%Z then 1%Z else 0%Z in
    let p := Z.abs p in
    (* p * 2^k / q lies in [2^52, 2^54) for this k *)
    let k := (53 + Z.log2 q - Z.log2 p)%Z in
    let scaled k := if (0 <=? k)%Z
                    then div_nearest_even (p * 2 ^ k) q
                    else div_nearest_even p (q * 2 ^ (- k)) in
    let floor k := if (0 <=? k)%Z then (p * 2 ^ k / q)%Z
                   else (p / (q * 2 ^ (- k)))%Z in
    let k := if (floor k <? 2 ^ 53)%Z then k else (k - 1)%Z in
    let m := scaled k in
    let '(m, k) := if (m =? 2 ^ 53)%Z then (2 ^ 52, k - 1)%Z else (m, k) in
    (sign * 2 ^ 63 + (52 - k + 1023) * 2 ^ 52 + (m - 2 ^ 52))%Z.

Definition str_of_Z (z : Z) : string := NilZero.string_of_int (Z.to_int z).

(** [format(x, '.2f')] of the binary64 number with these bits. *)
Definition format_2f (bits : Z) : string :=
  let sign := (bits / 2 ^ 63)%Z in
  let expo := ((bits / 2 ^ 52) mod 2048)%Z in
  let frac := (bits mod 2 ^ 52)%Z in
  if (expo =? 2047)%Z then
    if (frac =? 0)%Z then (if (sign =? 1)%Z then "-inf" else "inf") else "nan"
  else
    let m := if (expo =? 0)%Z then frac else (frac + 2 ^ 52)%Z in
    let e := if (expo =? 0)%Z then (-1074)%Z else (expo - 1075)%Z in
    let hundredths :=
      if (0 <=? e)%Z then (100 * m * 2 ^ e)%Z
      else div_nearest_even (100 * m) (2 ^ (- e)) in
    (if (sign =? 1)%Z then "-" else "")
    ++ str_of_Z (hundredths / 100) ++ "."
    ++ str_of_Z ((hundredths mod 100) / 10) ++ str_of_Z (hundredths mod 10).

(** [repr] of a cell, exact for integers, [None] and strings of printable
    characters without quote or backslash. *)
Definition repr_cell (v : value) : string :=
  match v with
  | VNone => "None"
  | VInt z => str_of_Z z
  | VFloat _ => "nan"
  | VStr s => "'" ++ s ++ "'"
  | VBytes b => "b'" ++ string_of_list_ascii b ++ "'"
  end.

(** [str] of a tuple: a one-element tuple ends in a comma. *)
Definition repr_tuple (row : list value) : string :=
  match row with
  | [v] => "(" ++ repr_cell v ++ ",)"
  | _ => "(" ++ String.concat ", " (map repr_cell row) ++ ")"
  end.

Definition scenario_lib : PyLib :=
  {| str_tuple := repr_tuple;
     str_json := fun v =>
       match v with
       | JNull => "None"
       | JBool true => "True"
       | JBool false => "False"
       | JNum z => str_of_Z z
       | _ => "<value>"
       end;
     is_number_dtype := fun cells =>
       match cells with [] => false | _ => forallb is_int cells end;
     series_min := fun cells =>
       VInt (fold_right Z.min (int_of (hd VNone cells)) (map int_of cells));
     series_max := fun cells =>
       VInt (fold_right Z.max (int_of (hd VNone cells)) (map int_of cells));
     str_scalar := fun v =>
       match v with
       | VInt z => str_of_Z z
       | _ => "nan"
       end;
     series_mean := fun cells =>
       match cells with
       | [] => 0x7ff8000000000000%Z
       | _ => binary64_of_ratio (fold_right Z.add 0%Z (map int_of cells))
                                (Z.of_nat (length cells))
       end;
     format_float := fun spec bits =>
       if String.eqb spec ".2f" then format_2f bits else "" |}.

(** A store with one table and a service with one answer per prompt kind;
    the query request is the one whose [max_tokens] is 500. *)
Definition scenario_env (connect_error : option Exn)
           (frame : Result DataFrame)
           (sql_answer insight_answer : Result Completion) : Env :=
  {| sqlite_connect := fun _ _ => connect_error;
     sqlite_master := fun _ _ => Ok ["cust_tbl"];
     sqlite_table_info := fun _ _ =>
       Ok [ {| cid := 0; pr_name := "id"; pr_type := "INTEGER";
               notnull := 0; dflt_value := VNone; pk := 1 |};
            {| cid := 1; pr_name := "status"; pr_type := "VARCHAR(10)";
               notnull := 0; dflt_value := VNone; pk := 0 |} ];
     sqlite_fetchall := fun _ _ =>
       Ok [ [VInt 1; VStr "Active"]; [VInt 2; VNone] ];
     read_sql_query := fun _ _ => frame;
     completion_create := fun _ req =>
       if Nat.eqb (max_tokens req) 500 then sql_answer else insight_answer;
     now_isoformat := fun h => "2024-01-01T00:00:0" ++ str_of_nat (length h) |}.

Definition count_frame : DataFrame :=
  {| df_columns := ["COUNT(*)"];
     df_len := 1;
     df_cell := fun _ _ => VInt 42 |}.

Definition count_query : string :=
  "SELECT COUNT(*) FROM cust_tbl WHERE status='Active'".

(** Scenario A: every party answers. *)
Definition env_ok : Env :=
  scenario_env None (Ok count_frame)
    (Ok {| choices := [count_query] |})
    (Ok {| choices := ["42 customers are active."] |}).

(** Scenario A with another narrative from the service. *)
Definition env_ok' : Env :=
  scenario_env None (Ok count_frame)
    (Ok {| choices := [count_query] |})
    (Ok {| choices := ["There are forty-two active customers."] |}).

(** A statement that selects a BLOB column: the cell is a [bytes] object. *)
Definition blob_frame : DataFrame :=
  {| df_columns := ["photo"];
     df_len := 1;
     df_cell := fun _ _ => VBytes (list_ascii_of_string "PNG") |}.

Definition env_blob : Env :=
  scenario_env None (Ok blob_frame)
    (Ok {| choices := ["SELECT photo FROM cust_tbl LIMIT 1"] |})
    (Ok {| choices := ["One photo."] |}).

(** Scenario C: the statement names a table that does not exist. *)
Definition env_no_table : Env :=
  scenario_env None (Raise {| exn_msg := "no such table: ordrs" |})
    (Ok {| choices := ["SELECT * FROM ordrs"] |})
    (Ok {| choices := ["unused"] |}).

(** The store layer fails with an exception that carries no message, as
    [MemoryError()] does. *)
Definition env_silent_failure : Env :=
  scenario_env None (Raise {| exn_msg := "" |})
    (Ok {| choices := [count_query] |})
    (Ok {| choices := ["unused"] |}).

(** Scenario B: the service is down. *)
Definition env_outage : Env :=
  scenario_env None (Ok count_frame)
    (Raise {| exn_msg := "service unavailable" |})
    (Raise {| exn_msg := "service unavailable" |}).

(** The service answers the query prompt with blanks only. *)
Definition env_blank : Env :=
  scenario_env None (Ok count_frame)
    (Ok {| choices := [" " ++ LF ++ NBSP ++ EM_SPACE ++ " "] |})
    (Ok {| choices := ["unused"] |}).

Definition scenario_agent : SQLAgent.Agent :=
  {| SQLAgent.db_path := "business_data.db";
     SQLAgent.schema_info :=
       [("cust_tbl",
         {| tbl_columns :=
              [ {| col_name := "id"; col_type := "INTEGER"; nullable := true |};
                {| col_name := "status"; col_type := "VARCHAR(10)";
                   nullable := true |} ];
            sample_data := [ [VInt 1; VStr "Active"]; [VInt 2; VNone] ] |})] |}.

Definition ask (q : string) : Request :=
  {| get_json := Ok (JObj [("question", JStr q)]) |}.

(** The executor's answer in scenario C. *)
Definition failed_result : QueryResult :=
  {| success := false; error := Some "no such table: ordrs";
     data := []; columns := []; row_count := 0 |}.

(** The character codes of a text. *)
Definition codes (s : string) : list nat :=
  map nat_of_ascii (list_ascii_of_string s).

(** The text the spec calls a double newline. *)
Definition double_newline : string := LF ++ LF.

Definition active_question : JValue := JStr "How many customers are active?".

(** [older] is what a history was at some earlier time of [newer]. *)
Definition is_suffix {A} (older newer : list A) : Prop :=
  exists added, newer = (added ++ older)%list.

(** What [_analyze_schema] records for a table, in a run over connection
    [conn] whose loop starts with history [hstart] and which ends with
    history [hfinal]: at some time [h] of the loop the two statements for
    the table were sent, the entry holds the first 3 of the sample rows the
    store returned then, and one column entry per row of
    [PRAGMA table_info] returned then, in the order of those rows, with the
    reported name, the reported type, and nullable exactly when [notnull]
    is 0. *)
Definition table_described (env : Env) (conn : nat)
           (hstart hfinal : list Event) (entry : string * TableInfo) : Prop :=
  let (table, info) := entry in
  exists h rows sample,
    is_suffix hstart h /\
    is_suffix (EvSql conn ("SELECT * FROM " ++ table ++ " LIMIT 5")
                 :: EvSql conn ("PRAGMA table_info(" ++ table ++ ")") :: h)
              hfinal /\
    sqlite_table_info env h ("PRAGMA table_info(" ++ table ++ ")") = Ok rows /\
    sqlite_fetchall env
      (EvSql conn ("PRAGMA table_info(" ++ table ++ ")") :: h)
      ("SELECT * FROM " ++ table ++ " LIMIT 5") = Ok sample /\
    sample_data info = firstn 3 sample /\
    (length (sample_data info) <= 3)%nat /\
    tbl_columns info
    = map (fun row => {| col_name := pr_name row;
                         col_type := pr_type row;
                         nullable := Z.eqb (notnull row) 0 |}) rows.

(** The store cannot be reached. *)
Definition env_unreachable : Env :=
  scenario_env (Some {| exn_msg := "unable to open database file" |})
    (Ok count_frame)
    (Ok {| choices := [count_query] |})
    (Ok {| choices := ["unused"] |}).

(** The metadata of the second table cannot be read. *)
Definition env_malformed : Env :=
  {| sqlite_connect := fun _ _ => None;
     sqlite_master := fun _ _ => Ok ["cust_tbl"; "prod_master"];
     sqlite_table_info := fun _ sql =>
       if String.eqb sql "PRAGMA table_info(cust_tbl)"
       then Ok [ {| cid := 0; pr_name := "id"; pr_type := "INTEGER";
                    notnull := 0; dflt_value := VNone; pk := 1 |} ]
       else Raise {| exn_msg := "database disk image is malformed" |};
     sqlite_fetchall := fun _ _ => Ok [ [VInt 1] ];
     read_sql_query := fun _ _ => Ok count_frame;
     completion_create := fun _ _ => Ok {| choices := [count_query] |};
     now_isoformat := fun _ => "2024-01-01T00:00:00" |}.

(** ** The schema text, piece by piece

    The loops of [_format_schema_for_prompt] append to one accumulator; the
    pieces they append are named here so that the result can be stated as
    the concatenation of the pieces in schema order. *)
Definition join_all (pieces : list string) : string :=
  fold_right append "" pieces.

Definition column_piece (col : ColumnInfo) : string :=
  "  - " ++ col_name col ++ " (" ++ col_type col ++ ")\n".

Definition sample_piece (lib : PyLib) (sample : list (list value)) : string :=
  match sample with
  | [] => ""
  | row0 :: _ => "  Sample data: " ++ str_tuple lib row0 ++ "\n"
  end.

Definition table_piece (lib : PyLib) (entry : string * TableInfo) : string :=
  "\nTable: " ++ fst entry ++ "\n"
  ++ join_all (map column_piece (tbl_columns (snd entry)))
  ++ sample_piece lib (sample_data (snd entry)).

(** Whether a text contains a line feed, and how many lines it has. *)
Definition has_lf (s : string) : bool := existsb (Nat.eqb 10) (codes s).

Definition line_count (s : string) : nat :=
  S (length (filter (Nat.eqb 10) (codes s))).

(** A result with four integer columns. *)
Definition four_numeric_rows : list record :=
  [ [("a", VInt 42); ("b", VInt 42); ("label", VStr "x"); ("c", VInt 42);
     ("d", VInt 42)] ].

(** ** The outcomes of the handler *)

(** The question the handler goes on with: the value under ["question"] of
    a dict body when it is truthy.  [None] covers a body that could not be
    read or is not a dict, a missing key, and an empty (falsy) question. *)
Definition asked (request : Request) : option JValue :=
  match get_json request with
  | Ok (JObj kvs) =>
      let question := match dict_get "question" kvs with
                      | Some v => v
                      | None => JStr ""
                      end in
      if truthy question then Some question else None
  | _ => None
  end.

Definition server_error (e : Exn) : Response :=
  {| body := ErrorBody ("Server error: " ++ exn_msg e); status := 500 |}.

(** The answer to a request without a usable question. *)
Definition rejection (request : Request) : Response :=
  match get_json request with
  | Ok (JObj _) => {| body := ErrorBody "Question is required"; status := 400 |}
  | Ok other =>
      server_error {| exn_msg := "'" ++ py_type_name other
                                 ++ "' object has no attribute 'get'" |}
  | Raise e => server_error e
  end.

Definition generation_error : Response :=
  {| body := ErrorBody "Could not generate SQL query"; status := 500 |}.

Definition is_error (r : Response) : bool :=
  match body r with
  | ErrorBody _ => (400 <=? status r)%nat
  | AnswerBody _ _ _ _ _ => false
  end.

Definition is_answer (r : Response) : bool :=
  match body r with
  | ErrorBody _ => false
  | AnswerBody _ _ _ _ _ => Nat.eqb (status r) 200
  end.

(** The world after [datetime.now()] was read. *)
Definition after_now (w : World) : World :=
  {| history := EvNow :: history w;
     open_conns := open_conns w;
     next_conn := next_conn w |}.

(** A request whose body has no ["question"] key. *)
Definition ask_nothing : Request :=
  {| get_json := Ok (JObj [("prompt", JStr "How many customers are active?")]) |}.

(** ** Two runs of the pipeline *)

(** A response with its timestamp blanked: the content that two runs are
    compared on. *)
Definition content (r : Response) : Response :=
  match body r with
  | ErrorBody _ => r
  | AnswerBody question sql_query results insights _ =>
      {| body := AnswerBody question sql_query results insights "";
         status := status r |}
  end.

(** The content of the outcome of a run of the handler. *)
Definition run_content (out : Result Response * World) : Result Response :=
  match fst out with
  | Ok r => Ok (content r)
  | Raise e => Raise e
  end.

(** The same parties with another clock. *)
Definition with_clock (env : Env) (clock : list Event -> string) : Env :=
  {| sqlite_connect := sqlite_connect env;
     sqlite_master := sqlite_master env;
     sqlite_table_info := sqlite_table_info env;
     sqlite_fetchall := sqlite_fetchall env;
     read_sql_query := read_sql_query env;
     completion_create := completion_create env;
     now_isoformat := clock |}.

(** The query generator, resp. the query executor, returns the same output
    in a run against [env1] as in a run against [env2]. *)
Definition same_generator (lib : PyLib) (agent : SQLAgent.Agent)
           (env1 env2 : Env) : Prop :=
  forall question w1 w2,
    fst (SQLAgent.generate_sql_query lib env1 agent question w1)
    = fst (SQLAgent.generate_sql_query lib env2 agent question w2).

Definition same_executor (agent : SQLAgent.Agent) (env1 env2 : Env) : Prop :=
  forall sql_query w1 w2,
    fst (SQLAgent.execute_query env1 agent sql_query w1)
    = fst (SQLAgent.execute_query env2 agent sql_query w2).

(** The idempotence property with the generator and the executor fixed and
    nothing said about the service behind the insight composer. *)
Definition idempotent_given_generator_and_executor : Prop :=
  forall (lib : PyLib) (agent : SQLAgent.Agent) (env1 env2 : Env)
         (request : Request) (w : World),
    same_generator lib agent env1 env2 ->
    same_executor agent env1 env2 ->
    run_content (ask_question lib env1 agent request w)
    = run_content (ask_question lib env2 agent request w).

(** Scenario A, run again at a later time. *)
Definition env_ok_later : Env :=
  with_clock env_ok (fun _ => "2025-06-01T12:00:00").


(** ** The other routes *)

(** What [jsonify(sql_agent.schema_info)] is given, with its status. *)
Record SchemaResponse : Type := {
  schema_body : Schema;
  schema_status : nat
}.

(** [GET /api/schema] *)
Definition get_schema (sql_agent : SQLAgent.Agent) : M SchemaResponse :=
  ret {| schema_body := SQLAgent.schema_info sql_agent; schema_status := 200 |}.

(** The dict of [GET /api/health], with its status. *)
Record HealthResponse : Type := {
  health_status : string;
  health_timestamp : string;
  health_code : nat
}.

(** [GET /api/health] *)
Definition health_check (env : Env) : M HealthResponse :=
  timestamp <- now env ;;
  ret {| health_status := "healthy"; health_timestamp := timestamp;
         health_code := 200 |}.

(** ** More observations *)

(** The statements sent to the store in a history, newest first. *)
Fixpoint statements (h : list Event) : list string :=
  match h with
  | [] => []
  | EvSql _ sql :: h' => sql :: statements h'
  | _ :: h' => statements h'
  end.

(** What of a schema reaches the prompt: per table its name, the name and
    type of each column, and the first sample row if there is one. *)
Definition prompt_view (schema : Schema)
  : list (string * list (string * string) * option (list value)) :=
  map (fun entry : string * TableInfo =>
         (fst entry,
          map (fun col => (col_name col, col_type col))
              (tbl_columns (snd entry)),
          hd_error (sample_data (snd entry))))
      schema.

(** The service is down for the insight request only. *)
Definition env_insight_outage : Env :=
  scenario_env None (Ok count_frame)
    (Ok {| choices := [count_query] |})
    (Raise {| exn_msg := "service unavailable" |}).

(** The service pads its answer with a no-break space, blanks, an em space
    and a line feed. *)
Definition env_padded : Env :=
  scenario_env None (Ok count_frame)
    (Ok {| choices := [NBSP ++ "  " ++ count_query ++ EM_SPACE ++ LF] |})
    (Ok {| choices := ["42 customers are active."] |}).

(** A join whose two [id] columns carry the same label. *)
Definition join_frame : DataFrame :=
  {| df_columns := ["id"; "nm"; "id"];
     df_len := 2;
     df_cell := fun r c => VInt (Z.of_nat (10 * r + c)) |}.

(** The same schema as [scenario_agent] has, with other nullability flags
    and other sample rows after the first. *)
Definition scenario_agent' : SQLAgent.Agent :=
  {| SQLAgent.db_path := "business_data.db";
     SQLAgent.schema_info :=
       [("cust_tbl",
         {| tbl_columns :=
              [ {| col_name := "id"; col_type := "INTEGER"; nullable := false |};
                {| col_name := "status"; col_type := "VARCHAR(10)";
                   nullable := true |} ];
            sample_data := [ [VInt 1; VStr "Active"]; [VInt 7; VStr "New"];
                             [VInt 9; VNone] ] |})] |}.

(** The executor's answer in scenario A. *)
Definition count_result : QueryResult :=
  {| success := true; error := None;
     data := to_dict_records count_frame;
     columns := df_columns count_frame;
     row_count := df_len count_frame |}.

(** The store answers with the join frame. *)
Definition env_join : Env :=
  scenario_env None (Ok join_frame)
    (Ok {| choices := ["SELECT a.id, a.nm, b.id FROM a JOIN b"] |})
    (Ok {| choices := ["Two rows."] |}).

(** The two statements schema analysis sends for one table. *)
Definition table_statements (table : string) : list string :=
  [ "PRAGMA table_info(" ++ table ++ ")";
    "SELECT * FROM " ++ table ++ " LIMIT 5" ].

(** ** Scenario runs *)

Definition join_query : string := "SELECT a.id, a.nm, b.id FROM a JOIN b".

(** The executor's answer for the join. *)
Definition join_result : QueryResult :=
  {| success := true; error := None;
     data := to_dict_records join_frame;
     columns := df_columns join_frame;
     row_count := df_len join_frame |}.

Definition join_run : Result QueryResult * World :=
  SQLAgent.execute_query env_join scenario_agent join_query world0.

(** Scenario A with a padded completion, and its bundle. *)
Definition padded_run : Result Response * World :=
  ask_question scenario_lib env_padded scenario_agent
               (ask "How many customers are active?") world0.

Definition padded_response : Response :=
  {| body := AnswerBody active_question count_query count_result
                        "42 customers are active." "2024-01-01T00:00:09";
     status := 200 |}.

(** Scenario C, and its bundle. *)
Definition no_table_run : Result Response * World :=
  ask_question scenario_lib env_no_table scenario_agent
               (ask "How many orders?") world0.

Definition no_table_response : Response :=
  {| body := AnswerBody (JStr "How many orders?") "SELECT * FROM ordrs"
                        failed_result SQLAgent.error_insight
                        "2024-01-01T00:00:06";
     status := 200 |}.

(** Schema analysis against the scenario store. *)
Definition analysis_run : Result Schema * World :=
  SQLAgent.analyze_schema_try env_ok "business_data.db" world0.

(** ** The stages of one run of the handler *)

(** The world in which the executor is called, and the history in which the
    insight request is sent, in the run that starts in world [w] with
    question [q] and executes [sql]. *)
Definition after_generation (lib : PyLib) (env : Env)
           (agent : SQLAgent.Agent) (q : JValue) (w : World) : World :=
  snd (SQLAgent.generate_sql_query lib env agent q w).

Definition after_execution (lib : PyLib) (env : Env)
           (agent : SQLAgent.Agent) (q : JValue) (sql : string) (w : World)
  : World :=
  snd (SQLAgent.execute_query env agent sql
         (after_generation lib env agent q w)).

Definition insight_history (lib : PyLib) (env : Env)
           (agent : SQLAgent.Agent) (q : JValue) (sql : string) (w : World)
  : list Event :=
  EvEnter ResultSummarizer :: EvEnter InsightComposer
    :: history (after_execution lib env agent q sql w).

(** The query generator returns the same output in the run against [env1]
    from [w1] as in the run against [env2] from [w2]. *)
Definition same_generator_output (lib : PyLib) (agent : SQLAgent.Agent)
           (env1 env2 : Env) (request : Request) (w1 w2 : World) : Prop :=
  forall q,
    asked request = Some q ->
    fst (SQLAgent.generate_sql_query lib env1 agent q w1)
    = fst (SQLAgent.generate_sql_query lib env2 agent q w2).

(** The executor, called with the generated query, returns the same output
    in the two runs. *)
Definition same_executor_output (lib : PyLib) (agent : SQLAgent.Agent)
           (env1 env2 : Env) (request : Request) (w1 w2 : World) : Prop :=
  forall q sql,
    asked request = Some q ->
    fst (SQLAgent.generate_sql_query lib env1 agent q w1) = Ok (Some sql) ->
    str_truthy sql = true ->
    fst (SQLAgent.execute_query env1 agent sql
           (after_generation lib env1 agent q w1))
    = fst (SQLAgent.execute_query env2 agent sql
             (after_generation lib env2 agent q w2)).

(** The completion service gives the same outcome for the insight request
    in the two runs, when the request is sent (the result is a success). *)
Definition same_insight_outcome (lib : PyLib) (agent : SQLAgent.Agent)
           (env1 env2 : Env) (request : Request) (w1 w2 : World) : Prop :=
  forall q sql results,
    asked request = Some q ->
    fst (SQLAgent.generate_sql_query lib env1 agent q w1) = Ok (Some sql) ->
    str_truthy sql = true ->
    fst (SQLAgent.execute_query env1 agent sql
           (after_generation lib env1 agent q w1)) = Ok results ->
    success results = true ->
    completion_create env1 (insight_history lib env1 agent q sql w1)
      (SQLAgent.insight_request lib q
         (SQLAgent._summarize_data lib (data results)))
    = completion_create env2 (insight_history lib env2 agent q sql w2)
        (SQLAgent.insight_request lib q
           (SQLAgent._summarize_data lib (data results))).
(** ** Running the monad *)

(** Unfolds the primitives of the monad and computes: what remains is a
    case analysis on what the oracles answer. *)
Ltac run_py :=
  unfold bind, try_except, emit, connect, query, close, Completion_create,
    py_print, emit, lift_result, ret;
  simpl.

(** ** Dictionaries *)

Lemma in_keys_dict_set {V} (k k' : string) (v : V) (d : pydict V) :
  In k (keys (dict_set k' v d)) <-> k = k' \/ In k (keys d).
Proof.
  induction d as [|[k0 v0] d IH]; simpl.
  - intuition.
  - destruct (String.eqb_spec k' k0) as [->|Hne]; simpl.
    + intuition.
    + unfold keys in IH. rewrite IH. intuition.
Qed.

Lemma keys_dict_set_fresh {V} (k : string) (v : V) (d : pydict V) :
  ~ In k (keys d) -> keys (dict_set k v d) = (keys d ++ [k])%list.
Proof.
  induction d as [|[k0 v0] d IH]; simpl; intros Hnin.
  - reflexivity.
  - destruct (String.eqb_spec k k0) as [->|Hne].
    + exfalso. apply Hnin. now left.
    + simpl. f_equal. apply IH. intros Hin. apply Hnin. now right.
Qed.

Lemma in_keys_fold_set {V} (ps : list (string * V)) (d : pydict V) (k : string) :
  In k (keys (fold_left (fun d kv => dict_set (fst kv) (snd kv) d) ps d))
  <-> In k (keys d) \/ In k (map fst ps).
Proof.
  revert d. induction ps as [|[k0 v0] ps IH]; intros d; simpl.
  - intuition.
  - rewrite IH, in_keys_dict_set. intuition.
Qed.

Lemma keys_fold_set_nodup {V} (ps : list (string * V)) (d : pydict V) :
  NoDup (keys d ++ map fst ps)%list ->
  keys (fold_left (fun d kv => dict_set (fst kv) (snd kv) d) ps d)
  = (keys d ++ map fst ps)%list.
Proof.
  revert d. induction ps as [|[k0 v0] ps IH]; intros d Hnd; simpl.
  - now rewrite app_nil_r.
  - simpl in Hnd.
    assert (Hfresh : ~ In k0 (keys d)).
    { apply NoDup_remove_2 in Hnd. intros Hin. apply Hnd.
      apply in_or_app. now left. }
    rewrite IH; rewrite (keys_dict_set_fresh _ _ _ Hfresh).
    + now rewrite <- app_assoc.
    + rewrite <- app_assoc. exact Hnd.
Qed.

Lemma fst_combine_row (df : DataFrame) (r : nat) :
  map fst (combine (df_columns df) (df_row df r)) = df_columns df.
Proof.
  unfold df_row.
  assert (H : forall (cols : list string) (vals : list value),
             length cols = length vals -> map fst (combine cols vals) = cols).
  { induction cols as [|c cols IH]; intros [|v vals] Hlen; simpl in *;
      try reflexivity; try discriminate.
    f_equal. apply IH. now injection Hlen. }
  apply H. now rewrite length_map, length_seq.
Qed.

Lemma existsb_eqb_in (k : string) (cols : list string) :
  existsb (String.eqb k) cols = true <-> In k cols.
Proof.
  rewrite existsb_exists. split.
  - intros [x [Hin Heq]]. apply String.eqb_eq in Heq. now subst.
  - intros Hin. exists k. split; [assumption | apply String.eqb_refl].
Qed.

Lemma add_label_known (cols : list string) (k : string) :
  In k cols -> add_label cols k = cols.
Proof.
  intros Hin. unfold add_label.
  now rewrite (proj2 (existsb_eqb_in k cols) Hin).
Qed.

Lemma add_label_fresh (cols : list string) (k : string) :
  ~ In k cols -> add_label cols k = (cols ++ [k])%list.
Proof.
  intros Hnin. unfold add_label.
  destruct (existsb (String.eqb k) cols) eqn:Hex; [|reflexivity].
  now apply existsb_eqb_in in Hex.
Qed.

(** Assigning to a key of a dict changes its key list as [add_label] does. *)
Lemma keys_dict_set {V} (k : string) (v : V) (d : pydict V) :
  keys (dict_set k v d) = add_label (keys d) k.
Proof.
  unfold keys, add_label.
  induction d as [|[k0 v0] d IH]; simpl; [reflexivity|].
  destruct (String.eqb_spec k k0) as [->|Hne]; simpl; [reflexivity|].
  rewrite IH. now destruct (existsb (String.eqb k) (map fst d)).
Qed.

Lemma keys_dict_of_pairs {V} (ps : list (string * V)) :
  keys (dict_of_pairs ps) = distinct_labels (map fst ps).
Proof.
  unfold dict_of_pairs, distinct_labels.
  assert (H : forall (d : pydict V),
             keys (fold_left (fun d kv => dict_set (fst kv) (snd kv) d) ps d)
             = fold_left add_label (map fst ps) (keys d)).
  { induction ps as [|[k v] ps IH]; intros d; simpl; [reflexivity|].
    now rewrite IH, keys_dict_set. }
  apply (H []).
Qed.

Lemma add_label_nodup (cols : list string) (k : string) :
  NoDup cols -> NoDup (add_label cols k).
Proof.
  intros Hnd. unfold add_label.
  destruct (existsb (String.eqb k) cols) eqn:Hex; [assumption|].
  apply NoDup_app.
  - assumption.
  - constructor; [intros [] | constructor].
  - intros x Hx [Heq|[]]. subst x.
    apply (proj2 (existsb_eqb_in k cols)) in Hx. congruence.
Qed.

Lemma fold_add_label_nodup (labels cols : list string) :
  NoDup cols -> NoDup (fold_left add_label labels cols).
Proof.
  revert cols. induction labels as [|k labels IH]; intros cols Hnd; simpl.
  - assumption.
  - apply IH. now apply add_label_nodup.
Qed.

Lemma distinct_labels_nodup (labels : list string) :
  NoDup (distinct_labels labels).
Proof. apply fold_add_label_nodup. constructor. Qed.

Lemma fold_add_label_known (labels cols : list string) :
  (forall k, In k labels -> In k cols) ->
  fold_left add_label labels cols = cols.
Proof.
  revert cols. induction labels as [|k labels IH]; intros cols Hall; simpl.
  - reflexivity.
  - rewrite add_label_known by (apply Hall; now left).
    apply IH. intros k' Hk'. apply Hall. now right.
Qed.

Lemma fold_add_label_fresh (labels cols : list string) :
  NoDup (cols ++ labels)%list ->
  fold_left add_label labels cols = (cols ++ labels)%list.
Proof.
  revert cols. induction labels as [|k labels IH]; intros cols Hnd; simpl.
  - now rewrite app_nil_r.
  - assert (Hfresh : ~ In k cols).
    { apply NoDup_remove_2 in Hnd. intros Hin. apply Hnd.
      apply in_or_app. now left. }
    rewrite add_label_fresh by assumption.
    rewrite IH; rewrite <- app_assoc; [reflexivity | exact Hnd].
Qed.

Lemma in_fold_add_label (labels cols : list string) (k : string) :
  In k (fold_left add_label labels cols) <-> In k cols \/ In k labels.
Proof.
  revert cols. induction labels as [|l labels IH]; intros cols; simpl.
  - tauto.
  - rewrite IH. unfold add_label.
    destruct (existsb (String.eqb l) cols) eqn:Hex.
    + apply existsb_eqb_in in Hex. intuition (subst; auto).
    + rewrite in_app_iff. simpl. intuition.
Qed.

Lemma in_distinct_labels (labels : list string) (k : string) :
  In k (distinct_labels labels) <-> In k labels.
Proof. unfold distinct_labels. rewrite in_fold_add_label. simpl. tauto. Qed.

Lemma dict_get_in_keys {V} (k : string) (d : pydict V) :
  (exists v, dict_get k d = Some v) <-> In k (keys d).
Proof.
  induction d as [|[k0 v0] d IH]; simpl.
  - split; [intros [v H]; discriminate | tauto].
  - destruct (String.eqb_spec k k0) as [->|Hne].
    + split; [auto | intros _; eauto].
    + rewrite IH. unfold keys. intuition congruence.
Qed.

(** The distinct labels are the labels without repetition, each at its
    first occurrence. *)
Lemma distinct_labels_first_occurrences (labels : list string) :
  distinct_labels labels = rev (nodup string_dec (rev labels)).
Proof.
  induction labels as [|x labels IH] using rev_ind; [reflexivity|].
  assert (Hstep : distinct_labels (labels ++ [x])
                  = add_label (distinct_labels labels) x).
  { unfold distinct_labels. now rewrite fold_left_app. }
  rewrite Hstep, rev_app_distr. cbn [rev app nodup].
  destruct (in_dec string_dec x (rev labels)) as [Hin|Hnin].
  - rewrite <- IH. apply add_label_known.
    apply in_rev in Hin. now apply in_distinct_labels.
  - cbn [rev]. rewrite <- IH. apply add_label_fresh.
    intros Hin. apply Hnin. apply -> in_rev.
    now apply in_distinct_labels.
Qed.

(** The keys of every record of [to_dict('records')] are the distinct
    labels of the frame: all records share one key list. *)
Lemma to_dict_records_share_keys (df : DataFrame) :
  Forall (fun rec : record => keys rec = distinct_labels (df_columns df))
         (to_dict_records df).
Proof.
  unfold to_dict_records. apply Forall_forall. intros rec Hin.
  apply in_map_iff in Hin. destruct Hin as [r [<- _]].
  now rewrite keys_dict_of_pairs, fst_combine_row.
Qed.

(** Every record of [to_dict('records')] has the frame's labels as keys. *)
Lemma to_dict_records_keys (df : DataFrame) :
  Forall (fun rec : record =>
            (forall c, In c (df_columns df) <-> In c (keys rec)) /\
            (NoDup (df_columns df) -> keys rec = df_columns df))
         (to_dict_records df).
Proof.
  unfold to_dict_records. apply Forall_forall. intros rec Hin.
  apply in_map_iff in Hin. destruct Hin as [r [<- _]].
  unfold dict_of_pairs. split.
  - intros c. rewrite in_keys_fold_set, fst_combine_row. simpl. intuition.
  - intros Hnd. rewrite keys_fold_set_nodup; rewrite fst_combine_row; simpl; auto.
Qed.

Lemma to_dict_records_length (df : DataFrame) :
  length (to_dict_records df) = df_len df.
Proof. unfold to_dict_records. now rewrite length_map, length_seq. Qed.

(** ** Trimming *)

Lemma append_assoc (a b c : string) : (a ++ b) ++ c = a ++ (b ++ c).
Proof. induction a as [|x a IH]; simpl; [reflexivity | now rewrite IH]. Qed.

Lemma append_nil_r (a : string) : a ++ "" = a.
Proof. induction a as [|x a IH]; simpl; [reflexivity | now rewrite IH]. Qed.

Lemma string_length_ind (P : string -> Prop) :
  (forall s, (forall r, (String.length r < String.length s)%nat -> P r) -> P s) ->
  forall s, P s.
Proof.
  intros Hstep s.
  assert (H : forall n r, (String.length r < n)%nat -> P r).
  { induction n as [|n IH]; intros r Hr; [lia|].
    apply Hstep. intros r' Hr'. apply IH. lia. }
  apply (H (S (String.length s))). lia.
Qed.

Lemma lstrip_unfold (s : string) :
  lstrip s = match drop_space s with
             | Some r => lstrip r
             | None => s
             end.
Proof.
  destruct s as [|c1 s1]; [reflexivity|]. cbn [lstrip drop_space].
  destruct (space1 _); [reflexivity|].
  destruct s1 as [|c2 s2]; [reflexivity|].
  destruct (space2 _ _); [reflexivity|].
  destruct s2 as [|c3 s3]; [reflexivity|].
  destruct (space3 _ _ _); reflexivity.
Qed.

(** What [drop_space] removes is one white space character at the front. *)
Lemma drop_space_char (s r : string) :
  drop_space s = Some r ->
  exists w, s = w ++ r /\ is_space_char w /\
            (String.length r < String.length s)%nat.
Proof.
  unfold is_space_char.
  destruct s as [|c1 s1]; [discriminate|]. cbn [drop_space].
  destruct (space1 (nat_of_ascii c1)) eqn:H1.
  { intros H. injection H as <-. exists (String c1 "").
    split; [reflexivity|]. split; [|simpl; lia].
    cbn [drop_space]. now rewrite H1. }
  destruct s1 as [|c2 s2]; [discriminate|].
  destruct (space2 (nat_of_ascii c1) (nat_of_ascii c2)) eqn:H2.
  { intros H. injection H as <-. exists (String c1 (String c2 "")).
    split; [reflexivity|]. split; [|simpl; lia].
    cbn [drop_space]. now rewrite H1, H2. }
  destruct s2 as [|c3 s3]; [discriminate|].
  destruct (space3 (nat_of_ascii c1) (nat_of_ascii c2) (nat_of_ascii c3))
    eqn:H3; [|discriminate].
  intros H. injection H as <-. exists (String c1 (String c2 (String c3 ""))).
  split; [reflexivity|]. split; [|simpl; lia].
  cbn [drop_space]. now rewrite H1, H2, H3.
Qed.

Lemma drop_space_app (s r q : string) :
  drop_space s = Some r -> drop_space (s ++ q) = Some (r ++ q).
Proof.
  destruct s as [|c1 s1]; [discriminate|]. cbn [drop_space append].
  destruct (space1 (nat_of_ascii c1)).
  { intros H. now injection H as <-. }
  destruct s1 as [|c2 s2]; [discriminate|]. cbn [append].
  destruct (space2 (nat_of_ascii c1) (nat_of_ascii c2)).
  { intros H. now injection H as <-. }
  destruct s2 as [|c3 s3]; [discriminate|]. cbn [append].
  destruct (space3 (nat_of_ascii c1) (nat_of_ascii c2) (nat_of_ascii c3));
    [|discriminate].
  intros H. now injection H as <-.
Qed.

Lemma all_space_iff (s : string) : all_space s = true <-> lstrip s = "".
Proof.
  unfold all_space. destruct (lstrip s); split; congruence.
Qed.

(** White space in front of a text does not survive [lstrip]. *)
Lemma lstrip_app_space (pre q : string) :
  all_space pre = true -> lstrip (pre ++ q) = lstrip q.
Proof.
  induction pre as [pre IH] using string_length_ind. intros Hpre.
  apply all_space_iff in Hpre. rewrite lstrip_unfold in Hpre.
  destruct (drop_space pre) as [r|] eqn:Hdrop.
  - rewrite lstrip_unfold, (drop_space_app _ _ q Hdrop).
    destruct (drop_space_char _ _ Hdrop) as [_ [_ [_ Hlen]]].
    apply IH; [exact Hlen|]. now apply all_space_iff.
  - now subst pre.
Qed.

Lemma all_space_append (pre post : string) :
  all_space pre = true -> all_space post = true ->
  all_space (pre ++ post) = true.
Proof.
  intros Hpre Hpost. apply all_space_iff.
  rewrite (lstrip_app_space _ _ Hpre). now apply all_space_iff.
Qed.

Lemma space_char_all_space (w : string) :
  is_space_char w -> all_space w = true.
Proof.
  unfold is_space_char. intros H. apply all_space_iff.
  rewrite lstrip_unfold, H. reflexivity.
Qed.

(** Trimming a text made of white space only leaves nothing. *)
Lemma strip_all_space (s : string) : all_space s = true -> strip s = "".
Proof.
  intros H. apply all_space_iff in H. unfold strip. now rewrite H.
Qed.

Lemma lstrip_split (s : string) :
  exists pre, s = pre ++ lstrip s /\ all_space pre = true.
Proof.
  induction s as [s IH] using string_length_ind.
  rewrite lstrip_unfold.
  destruct (drop_space s) as [r|] eqn:Hdrop.
  - destruct (drop_space_char _ _ Hdrop) as [w [Hs [Hw Hlen]]].
    destruct (IH r Hlen) as [pre [Hr Hpre]].
    exists (w ++ pre). split.
    + rewrite append_assoc, <- Hr. exact Hs.
    + apply all_space_append; [now apply space_char_all_space | exact Hpre].
  - now exists "".
Qed.

Lemma lstrip_no_space (s : string) : drop_space (lstrip s) = None.
Proof.
  induction s as [s IH] using string_length_ind.
  rewrite lstrip_unfold.
  destruct (drop_space s) as [r|] eqn:Hdrop; [|exact Hdrop].
  destruct (drop_space_char _ _ Hdrop) as [_ [_ [_ Hlen]]].
  now apply IH.
Qed.

Lemma rstrip_split (s : string) :
  exists post, s = rstrip s ++ post /\ all_space post = true.
Proof.
  induction s as [|c s [post [Heq Hpost]]].
  - now exists "".
  - cbn [rstrip]. destruct (all_space (String c s)) eqn:Hall.
    + now exists (String c s).
    + exists post. split; [|exact Hpost]. simpl. now rewrite <- Heq.
Qed.

(** [strip] removes a run of white space at each end and nothing else. *)
Lemma strip_split (s : string) :
  exists pre post,
    s = pre ++ strip s ++ post /\
    all_space pre = true /\ all_space post = true.
Proof.
  destruct (lstrip_split s) as [pre [H1 Hpre]].
  destruct (rstrip_split (lstrip s)) as [post [H2 Hpost]].
  exists pre, post. unfold strip. rewrite <- H2. auto.
Qed.

Lemma drop_space_prefix (p q : string) :
  drop_space (p ++ q) = None -> drop_space p = None.
Proof.
  intros H. destruct (drop_space p) as [r|] eqn:Hp; [|reflexivity].
  rewrite (drop_space_app _ _ q Hp) in H. discriminate.
Qed.

Lemma rstrip_no_trailing_space (s t u : string) :
  rstrip s = t ++ u -> is_space_char u -> False.
Proof.
  revert t. induction s as [|c s IH]; intros t Heq Hu.
  - destruct t; [|discriminate]. simpl in Heq. subst u. discriminate.
  - cbn [rstrip] in Heq. destruct (all_space (String c s)) eqn:Hall.
    + destruct t; [|discriminate]. simpl in Heq. subst u. discriminate.
    + destruct t as [|c' t]; simpl in Heq.
      * destruct (rstrip_split s) as [post [Hs Hpost]].
        assert (Hx : String c s = u ++ post).
        { rewrite <- Heq. simpl. now rewrite <- Hs. }
        rewrite Hx in Hall.
        rewrite (all_space_append _ _ (space_char_all_space _ Hu) Hpost)
          in Hall.
        discriminate.
      * injection Heq as _ Heq. exact (IH t Heq Hu).
Qed.

(** The trimmed text neither starts nor ends with a white space
    character. *)
Lemma strip_ends (s : string) :
  starts_with_space (strip s) = false /\
  (forall t u, strip s = t ++ u -> ~ is_space_char u).
Proof.
  unfold strip, starts_with_space. split.
  - destruct (rstrip_split (lstrip s)) as [post [Heq _]].
    pose proof (lstrip_no_space s) as Hno. rewrite Heq in Hno.
    now rewrite (drop_space_prefix _ _ Hno).
  - intros t u Heq Hu. exact (rstrip_no_trailing_space _ _ _ Heq Hu).
Qed.

(** The trimmed text is empty exactly for a text of white space only. *)
Lemma strip_empty_iff (s : string) : strip s = "" <-> all_space s = true.
Proof.
  split; [|apply strip_all_space].
  intros H. destruct (strip_split s) as [pre [post [Heq [Hpre Hpost]]]].
  rewrite H in Heq. simpl in Heq. rewrite Heq.
  now apply all_space_append.
Qed.

(** The white space characters in elementary terms: the characters
    [drop_space] drops are the 29 of the list [whitespace]. *)
Lemma ascii_of_code (c : ascii) (n : nat) :
  nat_of_ascii c = n -> c = ascii_of_nat n.
Proof. intros <-. symmetry. apply ascii_nat_embedding. Qed.

Lemma space1_codes (a : nat) :
  space1 a = true ->
  a = 9 \/ a = 10 \/ a = 11 \/ a = 12 \/ a = 13 \/
  a = 28 \/ a = 29 \/ a = 30 \/ a = 31 \/ a = 32.
Proof.
  unfold space1.
  rewrite Bool.orb_true_iff, !Bool.andb_true_iff, !Nat.leb_le. lia.
Qed.

Lemma space2_codes (a b : nat) :
  space2 a b = true -> a = 194 /\ (b = 133 \/ b = 160).
Proof.
  unfold space2.
  rewrite Bool.andb_true_iff, Bool.orb_true_iff, !Nat.eqb_eq. tauto.
Qed.

Lemma space3_codes (a b c : nat) :
  space3 a b c = true ->
  (a = 225 /\ b = 154 /\ c = 128) \/
  (a = 226 /\ b = 128 /\
   (c = 128 \/ c = 129 \/ c = 130 \/ c = 131 \/ c = 132 \/ c = 133 \/
    c = 134 \/ c = 135 \/ c = 136 \/ c = 137 \/ c = 138 \/
    c = 168 \/ c = 169 \/ c = 175)) \/
  (a = 226 /\ b = 129 /\ c = 159) \/
  (a = 227 /\ b = 128 /\ c = 128).
Proof.
  unfold space3.
  repeat first [rewrite Bool.orb_true_iff | rewrite Bool.andb_true_iff].
  rewrite !Nat.eqb_eq, !Nat.leb_le. lia.
Qed.

Ltac code_cases :=
  repeat match goal with
         | H : _ /\ _ |- _ => destruct H
         | H : _ \/ _ |- _ => destruct H
         | H : nat_of_ascii ?c = _ |- _ => apply ascii_of_code in H; subst c
         end.

Ltac in_whitespace :=
  vm_compute; repeat (first [left; reflexivity | right]).

Lemma is_space_char_iff (s : string) : is_space_char s <-> In s whitespace.
Proof.
  split.
  - unfold is_space_char.
    destruct s as [|c1 s1]; [discriminate|]. cbn [drop_space].
    destruct (space1 (nat_of_ascii c1)) eqn:H1.
    { intros H. injection H as ->.
      apply space1_codes in H1. code_cases; in_whitespace. }
    destruct s1 as [|c2 s2]; [discriminate|].
    destruct (space2 (nat_of_ascii c1) (nat_of_ascii c2)) eqn:H2.
    { intros H. injection H as ->.
      apply space2_codes in H2. code_cases; in_whitespace. }
    destruct s2 as [|c3 s3]; [discriminate|].
    destruct (space3 (nat_of_ascii c1) (nat_of_ascii c2) (nat_of_ascii c3))
      eqn:H3; [|discriminate].
    intros H. injection H as ->.
    apply space3_codes in H3. code_cases; in_whitespace.
  - intros H. vm_compute in H.
    repeat (destruct H as [<-|H]; [reflexivity|]). destruct H.
Qed.

Lemma concat_empty_cons (x : string) (l : list string) :
  String.concat "" (x :: l) = x ++ String.concat "" l.
Proof.
  destruct l as [|y l]; [|reflexivity]. simpl. now rewrite append_nil_r.
Qed.

Lemma all_space_blank (s : string) : all_space s = true <-> blank s.
Proof.
  split.
  - induction s as [s IH] using string_length_ind. intros Hall.
    apply all_space_iff in Hall. rewrite lstrip_unfold in Hall.
    destruct (drop_space s) as [r|] eqn:Hdrop.
    + destruct (drop_space_char _ _ Hdrop) as [c [Hs [Hc Hlen]]].
      destruct (IH r Hlen) as [chars [Hchars Hr]];
        [now apply all_space_iff|].
      exists (c :: chars). split.
      * constructor; [now apply is_space_char_iff | exact Hchars].
      * now rewrite concat_empty_cons, <- Hr.
    + subst s. now exists [].
  - intros [chars [Hchars ->]].
    induction Hchars as [|c chars Hc _ IH]; [reflexivity|].
    rewrite concat_empty_cons. apply all_space_append; [|exact IH].
    apply space_char_all_space. now apply is_space_char_iff.
Qed.

(** [strip] does what [str.strip()] promises. *)
Lemma strip_trimmed (text : string) : trimmed_of text (strip text).
Proof.
  destruct (strip_split text) as [pre [post [Heq [Hpre Hpost]]]].
  destruct (strip_ends text) as [Hstart Hend].
  split; [|split].
  - exists pre, post. split; [exact Heq|].
    split; now apply all_space_blank.
  - intros c rest Hc Heq'. apply is_space_char_iff in Hc.
    unfold starts_with_space in Hstart. rewrite Heq' in Hstart.
    now rewrite (drop_space_app c "" rest Hc) in Hstart.
  - intros rest c Hc Heq'. apply is_space_char_iff in Hc.
    exact (Hend rest c Heq' Hc).
Qed.

Lemma strip_blank (text : string) : strip text = "" <-> blank text.
Proof. rewrite strip_empty_iff. apply all_space_blank. Qed.

(** U+00A0 and U+2003 are trimmed like a blank. *)
Example strip_unicode_space :
  strip (NBSP ++ "SELECT 1" ++ EM_SPACE ++ LF) = "SELECT 1"
  /\ strip NBSP = "" /\ all_space (NBSP ++ " " ++ EM_SPACE) = true.
Proof. repeat split. Qed.

(** ** Query execution *)

(** C1, as stated, does not hold: a failure whose exception carries no
    message yields a failure result whose error text is empty. *)
Lemma execute_query_error_can_be_empty :
  ~ (forall (env : Env) (self : SQLAgent.Agent) (sql_query : string)
            (w : World) (r : QueryResult) (w' : World),
        SQLAgent.execute_query env self sql_query w = (Ok r, w') ->
        QueryResult_inv_nonempty_error r).
Proof.
  intros H.
  specialize (H env_silent_failure scenario_agent count_query world0 _ _
                eq_refl).
  destruct H as [_ H]. simpl in H.
  destruct H as [msg [Hmsg Hne]].
  injection Hmsg as <-. now apply Hne.
Qed.

(** C1 (amended): for every query string the executor returns a result and
    never raises.  The result is a failure exactly when the store layer
    raised.  A failure result has no rows, no columns, row count 0 and the
    error field set to the text of the caught exception (which may be
    empty); a success result has no error field, its row count is the
    number of rows, and every row has exactly the names in [columns] as its
    keys, in the same order when those names are distinct. *)
Theorem execute_query_invariant (env : Env) (self : SQLAgent.Agent)
        (sql_query : string) (w : World) :
  exists (r : QueryResult) (w' : World),
    SQLAgent.execute_query env self sql_query w = (Ok r, w') /\
    QueryResult_inv r /\
    error r = option_map exn_msg (caught_by_executor env self sql_query w) /\
    success r = match caught_by_executor env self sql_query w with
                | Some _ => false
                | None => true
                end.
Proof.
  unfold SQLAgent.execute_query, caught_by_executor. run_py.
  destruct (sqlite_connect env _ _) as [e|]; simpl.
  - eexists _, _. split; [reflexivity|].
    unfold QueryResult_inv. simpl. repeat split. now exists (exn_msg e).
  - destruct (read_sql_query env _ _) as [df|e]; simpl.
    + eexists _, _. split; [reflexivity|].
      unfold QueryResult_inv. simpl. repeat split.
      * symmetry. apply to_dict_records_length.
      * apply to_dict_records_keys.
    + eexists _, _. split; [reflexivity|].
      unfold QueryResult_inv. simpl. repeat split. now exists (exn_msg e).
Qed.

(** The error text of a failure result is [str(e)] of the exception the
    store layer raised. *)
Lemma execute_query_error_text (env : Env) (self : SQLAgent.Agent)
      (sql_query : string) (w : World) (e : Exn) :
  sqlite_connect env (EvEnter QueryExecutor :: history w)
                 (SQLAgent.db_path self) = Some e ->
  exists w',
    SQLAgent.execute_query env self sql_query w
    = (Ok {| success := false; error := Some (exn_msg e); data := [];
             columns := []; row_count := 0 |}, w').
Proof.
  intros He.
  unfold SQLAgent.execute_query. run_py.
  rewrite He. simpl. eexists. reflexivity.
Qed.

(** On the success path the connection opened for the request is closed. *)
Lemma execute_query_success_closes (env : Env) (self : SQLAgent.Agent)
      (sql_query : string) (w : World) (r : QueryResult) (w' : World) :
  SQLAgent.execute_query env self sql_query w = (Ok r, w') ->
  success r = true ->
  ~ In (next_conn w) (open_conns w') /\
  (forall c, In c (open_conns w') -> In c (open_conns w)).
Proof.
  unfold SQLAgent.execute_query. run_py.
  destruct (sqlite_connect env _ _) as [e|]; simpl.
  - intros H Hs. injection H as <- <-. discriminate.
  - destruct (read_sql_query env _ _) as [df|e]; simpl.
    + intros H _. injection H as <- <-. simpl.
      rewrite Nat.eqb_refl. simpl. unfold remove_conn. split.
      * intros Hin. apply filter_In in Hin. destruct Hin as [_ Hin].
        now rewrite Nat.eqb_refl in Hin.
      * intros c Hin. apply filter_In in Hin. tauto.
    + intros H Hs. injection H as <- <-. discriminate.
Qed.

(** On the path where the statement fails after the connection was opened,
    [conn.close()] is never reached: the connection stays open. *)
Lemma execute_query_failure_leaks (env : Env) (self : SQLAgent.Agent)
      (sql_query : string) (w : World) (e : Exn) :
  sqlite_connect env (EvEnter QueryExecutor :: history w)
                 (SQLAgent.db_path self) = None ->
  read_sql_query env
    (EvConnect (SQLAgent.db_path self) (next_conn w)
       :: EvEnter QueryExecutor :: history w) sql_query = Raise e ->
  exists r w',
    SQLAgent.execute_query env self sql_query w = (Ok r, w') /\
    success r = false /\
    In (next_conn w) (open_conns w') /\
    history w' = EvSql (next_conn w) sql_query
                   :: EvConnect (SQLAgent.db_path self) (next_conn w)
                   :: EvEnter QueryExecutor :: history w.
Proof.
  intros Hc Hr.
  unfold SQLAgent.execute_query. run_py.
  rewrite Hc. simpl. rewrite Hr. simpl.
  eexists _, _. split; [reflexivity|]. simpl. split; [reflexivity|].
  split; [now left | reflexivity].
Qed.

(** C2 fails on the code at a statement the store rejects: the executor
    answers with a failure result while the connection it opened (handle 0)
    is still open, and no close was issued. *)
Theorem execute_query_error_path_keeps_connection :
  SQLAgent.execute_query env_no_table scenario_agent "SELECT * FROM ordrs"
                         world0
  = (Ok {| success := false; error := Some "no such table: ordrs";
           data := []; columns := []; row_count := 0 |},
     {| history := [ EvSql 0 "SELECT * FROM ordrs";
                     EvConnect "business_data.db" 0;
                     EvEnter QueryExecutor ];
        open_conns := [0];
        next_conn := 1 |}).
Proof. reflexivity. Qed.

(** ** Insight generation *)

(** C3: on a failed result the insight composer returns the fixed message
    and does not reach the completion service. *)
Theorem generate_insights_failed_short_circuits (lib : PyLib) (env : Env)
        (question : JValue) (query_results : QueryResult) (w : World) :
  success query_results = false ->
  exists w',
    SQLAgent.generate_insights lib env question query_results w
    = (Ok SQLAgent.error_insight, w') /\
    history w' = EvEnter InsightComposer :: history w /\
    completion_calls (history w') = completion_calls (history w).
Proof.
  intros Hfail.
  unfold SQLAgent.generate_insights. run_py.
  rewrite Hfail. simpl. eexists. split; [reflexivity|]. simpl. auto.
Qed.

Lemma generate_insights_failed_short_circuits_witness :
  success failed_result = false /\
  exists w',
    SQLAgent.generate_insights scenario_lib env_ok (JStr "How many orders?")
                               failed_result world0
    = (Ok SQLAgent.error_insight, w') /\
    history w' = EvEnter InsightComposer :: history world0 /\
    completion_calls (history w') = completion_calls (history world0).
Proof.
  split; [reflexivity|].
  apply (generate_insights_failed_short_circuits scenario_lib env_ok
           (JStr "How many orders?") failed_result world0).
  reflexivity.
Defined.

(** ** Query generation *)

(** The request of the query generator: output bounded by 500 tokens,
    temperature 0.1, one stop marker. *)
Lemma sql_request_parameters (lib : PyLib) (self : SQLAgent.Agent)
      (question : JValue) :
  let req := SQLAgent.sql_request lib self question in
  max_tokens req = 500 /\
  Qeq (temperature req) (1 # 10) /\
  Qlt (temperature req) 1 /\
  exists marker, stop req = Some [marker].
Proof.
  simpl. repeat split; try reflexivity. now exists "\n\n".
Qed.

(** What [generate_sql_query] does, for every service: it never raises, it
    reaches the service exactly once (no retry), it touches no connection,
    and it returns the trimmed text of the first choice, or [None] when the
    call raised or the response had no choice. *)
Lemma generate_sql_query_contract (lib : PyLib) (env : Env)
      (self : SQLAgent.Agent) (question : JValue) (w : World) :
  let req := SQLAgent.sql_request lib self question in
  exists res w',
    SQLAgent.generate_sql_query lib env self question w = (Ok res, w') /\
    completion_calls (history w') = S (completion_calls (history w)) /\
    In (EvCompletion req) (history w') /\
    open_conns w' = open_conns w /\
    store_calls (history w') = store_calls (history w) /\
    res = match completion_create env (EvEnter QueryGenerator :: history w)
                                  req with
          | Ok {| choices := text :: _ |} => Some (strip text)
          | _ => None
          end.
Proof.
  intros req.
  unfold SQLAgent.generate_sql_query. run_py. fold req.
  destruct (completion_create env _ req) as [[[|text rest]]|e]; simpl;
    eexists _, _; (split; [reflexivity|]); simpl; auto 10.
Qed.

(** C4 fails on the code in its stop condition.  The only stop marker the
    generator sends is the four characters backslash, n, backslash, n (the
    source writes the literal with doubled backslashes); it is not the text
    of two line feeds. *)
Theorem generate_sql_query_stop_marker :
  let req := SQLAgent.sql_request scenario_lib scenario_agent active_question in
  history (snd (SQLAgent.generate_sql_query scenario_lib env_ok scenario_agent
                                            active_question world0))
  = [EvCompletion req; EvEnter QueryGenerator] /\
  (exists marker, stop req = Some [marker] /\ codes marker = [92; 110; 92; 110]) /\
  codes double_newline = [10; 10] /\
  stop req <> Some [double_newline].
Proof.
  simpl. split; [reflexivity|]. split; [|split].
  - eexists. split; reflexivity.
  - reflexivity.
  - discriminate.
Qed.

(** ** Schema analysis *)

Lemma Forall_dict_set {V} (P : string * V -> Prop) (k : string) (v : V)
      (d : pydict V) :
  Forall P d -> P (k, v) -> Forall P (dict_set k v d).
Proof.
  intros Hd Hkv. induction d as [|[k0 v0] d IH]; simpl.
  - now constructor.
  - inversion Hd; subst. destruct (String.eqb k k0); constructor; auto.
Qed.

Lemma query_run {A} (oracle : list Event -> string -> Result A) (c : nat)
      (sql : string) (w : World) :
  query oracle c sql w
  = (oracle (history w) sql,
     {| history := EvSql c sql :: history w;
        open_conns := open_conns w;
        next_conn := next_conn w |}).
Proof. reflexivity. Qed.

(** A property of the state and the world kept by every pass of a loop
    holds when the loop ends. *)
Lemma for_each_invariant_world {A S} (P : S -> World -> Prop)
      (body : S -> A -> M S) :
  (forall s x w s' w', P s w -> body s x w = (Ok s', w') -> P s' w') ->
  forall xs s w s' w',
    P s w -> for_each xs body s w = (Ok s', w') -> P s' w'.
Proof.
  intros Hbody. induction xs as [|x xs IH]; intros s w s' w' Hs; simpl.
  - unfold ret. intros H. now injection H as <- <-.
  - unfold bind. destruct (body s x w) as [[s1|e] w1] eqn:Hb.
    + intros H. apply (IH _ _ _ _ (Hbody _ _ _ _ _ Hs Hb) H).
    + discriminate.
Qed.

Lemma table_described_later (env : Env) (conn : nat)
      (hstart h1 h2 : list Event) (entry : string * TableInfo) :
  is_suffix h1 h2 ->
  table_described env conn hstart h1 entry ->
  table_described env conn hstart h2 entry.
Proof.
  intros [added ->]. destruct entry as [table info].
  intros [h [rows [sample [Hstart [[added' Hsuf] Hrest]]]]].
  exists h, rows, sample. split; [exact Hstart|]. split; [|exact Hrest].
  exists (added ++ added')%list. now rewrite Hsuf, app_assoc.
Qed.

Lemma analyze_loop_keys (env : Env) (conn : nat) (tables : list string) :
  forall (schema : Schema) (w : World) (schema' : Schema) (w' : World),
    for_each tables (SQLAgent.analyze_table env conn) schema w
    = (Ok schema', w') ->
    keys schema' = fold_left add_label tables (keys schema).
Proof.
  induction tables as [|table tables IH]; intros schema w schema' w'; simpl.
  - unfold ret. intros H. now injection H as <- _.
  - unfold bind at 1.
    destruct (SQLAgent.analyze_table env conn schema table w)
      as [[s1|e] w1] eqn:Hstep; [|discriminate].
    intros Hrest. rewrite (IH _ _ _ _ Hrest). f_equal.
    revert Hstep. unfold SQLAgent.analyze_table, bind, query, ret. simpl.
    destruct (sqlite_table_info env _ _); [|discriminate].
    destruct (sqlite_fetchall env _ _); [|discriminate].
    intros H. injection H as <- _. apply keys_dict_set.
Qed.

Lemma analyze_table_described (env : Env) (conn : nat)
      (hstart : list Event) (schema : Schema)
      (table : string) (w : World) (schema' : Schema) (w' : World) :
  is_suffix hstart (history w) /\
  Forall (table_described env conn hstart (history w)) schema ->
  SQLAgent.analyze_table env conn schema table w = (Ok schema', w') ->
  is_suffix hstart (history w') /\
  Forall (table_described env conn hstart (history w')) schema'.
Proof.
  intros [Hstart Hs]. unfold SQLAgent.analyze_table, bind, query, ret. simpl.
  destruct (sqlite_table_info env _ _) as [rows|e] eqn:Hrows; [|discriminate].
  destruct (sqlite_fetchall env _ _) as [sample|e] eqn:Hsample; [|discriminate].
  intros H. injection H as <- <-. cbn [history].
  split.
  { destruct Hstart as [added Hadd].
    exists (EvSql conn ("SELECT * FROM " ++ table ++ " LIMIT 5")
              :: EvSql conn ("PRAGMA table_info(" ++ table ++ ")")
              :: added)%list.
    cbn [app]. now rewrite <- Hadd. }
  apply Forall_dict_set.
  - eapply Forall_impl; [|exact Hs]. intros entry.
    apply table_described_later.
    exists [EvSql conn ("SELECT * FROM " ++ table ++ " LIMIT 5");
            EvSql conn ("PRAGMA table_info(" ++ table ++ ")")].
    reflexivity.
  - exists (history w), rows, sample.
    split; [exact Hstart|].
    split; [now exists []|]. split; [exact Hrows|]. split; [exact Hsample|].
    unfold SQLAgent.table_info. cbn [sample_data tbl_columns].
    split; [now destruct sample|]. split; [|reflexivity].
    destruct sample; [simpl; lia | apply firstn_le_length].
Qed.

(** C6: schema analysis never raises.  Whenever anything in its [try]
    block raises, the result is the empty mapping.  Otherwise the schema has
    one entry for each table the catalog query reported in this run, in
    catalog order, and the entry of a table holds what the store returned
    for it in this run, after the catalog query: at most 3 sample rows, the
    first ones, and the columns in the order the store reported them, with
    their declared type and nullability. *)
Theorem analyze_schema_fails_soft (env : Env) (path : string) (w : World) :
  exists (schema : Schema) (w' : World),
    SQLAgent._analyze_schema env path w = (Ok schema, w') /\
    match SQLAgent.analyze_schema_try env path w with
    | (Raise e, w1) =>
        schema = [] /\
        history w' = EvPrint ("Error analyzing schema: " ++ exn_msg e)
                       :: history w1
    | (Ok built, w1) =>
        schema = built /\ w' = w1 /\
        exists tables,
          sqlite_master env (EvConnect path (next_conn w) :: history w)
            "SELECT name FROM sqlite_master WHERE type='table';"
          = Ok tables /\
          map fst schema
          = rev (nodup string_dec (rev tables)) /\
          (forall table,
              In table tables ->
              exists info, In (table, info) schema) /\
          Forall (table_described env (next_conn w)
                    (EvSql (next_conn w)
                           "SELECT name FROM sqlite_master WHERE type='table';"
                       :: EvConnect path (next_conn w) :: history w)
                    (history w'))
                 schema
    end.
Proof.
  unfold SQLAgent._analyze_schema, try_except.
  destruct (SQLAgent.analyze_schema_try env path w) as [[built|e] w1] eqn:Htry.
  - exists built, w1. split; [reflexivity|].
    split; [reflexivity|]. split; [reflexivity|].
    revert Htry.
    unfold SQLAgent.analyze_schema_try, bind, connect.
    destruct (sqlite_connect env _ _); [discriminate|].
    rewrite query_run. cbn [history open_conns next_conn].
    destruct (sqlite_master env _ _) as [tables|]; [|discriminate].
    match goal with
    | |- context [for_each tables ?b ?s ?w0] =>
        destruct (for_each tables b s w0) as [[s'|e'] w2] eqn:Hloop
    end; [|discriminate].
    unfold close, ret. intros H. injection H as <- <-. cbn [history].
    exists tables. split; [reflexivity|].
    pose proof (analyze_loop_keys _ _ _ _ _ _ _ Hloop) as Hkeys.
    simpl in Hkeys. fold (distinct_labels tables) in Hkeys.
    split; [|split].
    + change (map fst s') with (keys s'). rewrite Hkeys.
      apply distinct_labels_first_occurrences.
    + intros table Hin.
      assert (Hk : In table (keys s')).
      { rewrite Hkeys. now apply in_distinct_labels. }
      unfold keys in Hk. apply in_map_iff in Hk.
      destruct Hk as [[t info] [Ht Hentry]]. simpl in Ht. subst t.
      now exists info.
    + eapply Forall_impl.
      * intros entry. apply table_described_later.
        exists [EvClose (next_conn w)]. reflexivity.
      * refine (proj2 (for_each_invariant_world
                  (fun s w0 =>
                     is_suffix _ (history w0) /\
                     Forall (table_described env (next_conn w) _
                                             (history w0)) s)
                  _ _ _ _ _ _ _ _ Hloop)).
        -- intros s x w0 s0 w3 Hs Hb.
           eapply analyze_table_described; eassumption.
        -- split; [now exists [] | constructor].
  - unfold bind, py_print, emit, ret. simpl.
    eexists _, _. split; [reflexivity|]. auto.
Qed.

(** An unreachable store gives the empty mapping. *)
Example analyze_schema_unreachable :
  fst (SQLAgent._analyze_schema env_unreachable "business_data.db" world0)
  = Ok [].
Proof. reflexivity. Qed.

(** A failure in the middle of the loop discards the tables already read. *)
Lemma analyze_schema_connect_failure (env : Env) (path : string) (w : World)
      (e : Exn) :
  sqlite_connect env (history w) path = Some e ->
  fst (SQLAgent._analyze_schema env path w) = Ok [].
Proof.
  intros He.
  unfold SQLAgent._analyze_schema, try_except, SQLAgent.analyze_schema_try,
    bind, connect.
  rewrite He. reflexivity.
Qed.

(** A reachable store is described table by table. *)
Example analyze_schema_scenario :
  fst (SQLAgent._analyze_schema env_ok "business_data.db" world0)
  = Ok (SQLAgent.schema_info scenario_agent).
Proof. reflexivity. Qed.

(** A failure while reading the second table discards the first one too. *)
Example analyze_schema_malformed :
  fst (SQLAgent._analyze_schema env_malformed "business_data.db" world0)
  = Ok [].
Proof. reflexivity. Qed.

(** ** The schema text *)

Lemma format_columns_pieces (cols : list ColumnInfo) (schema_text : string) :
  fold_left SQLAgent.format_column cols schema_text
  = schema_text ++ join_all (map column_piece cols).
Proof.
  revert schema_text. induction cols as [|col cols IH]; intros acc; simpl.
  - now rewrite append_nil_r.
  - rewrite IH. unfold SQLAgent.format_column.
    rewrite append_assoc. reflexivity.
Qed.

Lemma format_table_piece (lib : PyLib) (schema_text : string)
      (entry : string * TableInfo) :
  SQLAgent.format_table lib schema_text entry
  = schema_text ++ table_piece lib entry.
Proof.
  destruct entry as [table info].
  unfold SQLAgent.format_table, table_piece, sample_piece. simpl fst. simpl snd.
  rewrite format_columns_pieces.
  destruct (sample_data info) as [|row0 rest].
  - rewrite append_nil_r. rewrite !append_assoc. reflexivity.
  - rewrite !append_assoc. reflexivity.
Qed.

(** The schema text is the concatenation, in schema order, of one piece per
    table: a header, one piece per column in column order, and a piece for
    the first sample row when there is one.  Being a function of the schema
    and of [str] on tuples, it is the same for the same schema. *)
Lemma format_schema_pieces (lib : PyLib) (self : SQLAgent.Agent) :
  SQLAgent._format_schema_for_prompt lib self
  = join_all (map (table_piece lib) (SQLAgent.schema_info self)).
Proof.
  unfold SQLAgent._format_schema_for_prompt.
  assert (H : forall entries acc,
             fold_left (SQLAgent.format_table lib) entries acc
             = acc ++ join_all (map (table_piece lib) entries)).
  { induction entries as [|entry entries IH]; intros acc; simpl.
    - now rewrite append_nil_r.
    - rewrite IH, format_table_piece, append_assoc. reflexivity. }
  apply H.
Qed.

Lemma codes_app (a b : string) : codes (a ++ b) = (codes a ++ codes b)%list.
Proof.
  unfold codes. induction a as [|x a IH]; simpl; [reflexivity|].
  now rewrite IH.
Qed.

Lemma has_lf_app (a b : string) : has_lf (a ++ b) = has_lf a || has_lf b.
Proof. unfold has_lf. now rewrite codes_app, existsb_app. Qed.

Lemma has_lf_join_all (pieces : list string) :
  forallb (fun p => negb (has_lf p)) pieces = true ->
  has_lf (join_all pieces) = false.
Proof.
  induction pieces as [|p pieces IH]; simpl; [reflexivity|].
  intros H. apply andb_true_iff in H. destruct H as [Hp Hrest].
  rewrite has_lf_app, (IH Hrest). apply negb_true_iff in Hp. now rewrite Hp.
Qed.

(** The text has a line feed only where a name, a type or a rendered row
    brings one: the separators the code appends are the two characters
    backslash and n. *)
Lemma format_schema_no_line_feed (lib : PyLib) (self : SQLAgent.Agent) :
  Forall (fun entry : string * TableInfo =>
            has_lf (fst entry) = false /\
            Forall (fun col => has_lf (col_name col) = false /\
                               has_lf (col_type col) = false)
                   (tbl_columns (snd entry)) /\
            has_lf (sample_piece lib (sample_data (snd entry))) = false)
         (SQLAgent.schema_info self) ->
  has_lf (SQLAgent._format_schema_for_prompt lib self) = false.
Proof.
  intros Hall. rewrite format_schema_pieces. apply has_lf_join_all.
  apply forallb_forall. intros piece Hin. apply in_map_iff in Hin.
  destruct Hin as [entry [<- Hin]].
  rewrite Forall_forall in Hall. destruct (Hall _ Hin) as [Ht [Hcols Hs]].
  apply negb_true_iff. unfold table_piece.
  rewrite !has_lf_app, Ht, Hs. simpl. rewrite orb_false_r.
  apply has_lf_join_all. apply forallb_forall. intros p Hp.
  apply in_map_iff in Hp. destruct Hp as [col [<- Hcol]].
  rewrite Forall_forall in Hcols. destruct (Hcols _ Hcol) as [Hn Hty].
  apply negb_true_iff. unfold column_piece.
  rewrite !has_lf_app, Hn, Hty. reflexivity.
Qed.

(** C7 fails on the code: for a table with two columns and sample rows the
    rendered text is one single line.  Header, columns and sample row are
    all there, in schema order, but they are separated by the two
    characters backslash and n, not by line feeds. *)
Theorem format_schema_is_one_line :
  SQLAgent._format_schema_for_prompt scenario_lib scenario_agent
  = "\nTable: cust_tbl\n  - id (INTEGER)\n  - status (VARCHAR(10))\n  Sample data: (1, 'Active')\n"
  /\ has_lf (SQLAgent._format_schema_for_prompt scenario_lib scenario_agent)
     = false
  /\ line_count (SQLAgent._format_schema_for_prompt scenario_lib scenario_agent)
     = 1.
Proof. repeat split. Qed.

(** ** The summary of a result *)

Lemma stat_loop_pieces (lib : PyLib) (data : list record) (cols : list string)
      (summary : string) :
  fold_left (fun summary col => summary ++ SQLAgent.stat_line lib data col)
            cols summary
  = summary ++ join_all (map (SQLAgent.stat_line lib data) cols).
Proof.
  revert summary. induction cols as [|col cols IH]; intros acc; simpl.
  - now rewrite append_nil_r.
  - now rewrite IH, append_assoc.
Qed.

(** The numeric columns keep the order of the frame's columns. *)
Lemma numeric_cols_in_frame_order (lib : PyLib) (data : list record) :
  SQLAgent.numeric_cols lib data
  = filter (fun col => is_number_dtype lib (SQLAgent.frame_column data col))
           (SQLAgent.frame_columns data).
Proof. reflexivity. Qed.

(** When all records share one list of distinct keys, as the records of
    [execute_query] do, the frame built from them has exactly these keys as
    its columns, in their order: the column order of the statistics is the
    order of the first record's keys. *)
Lemma frame_columns_shared_keys (ks : list string) (data : list record) :
  NoDup ks -> data <> [] ->
  Forall (fun rec : record => keys rec = ks) data ->
  SQLAgent.frame_columns data = ks.
Proof.
  intros Hnd Hne Hall. unfold SQLAgent.frame_columns.
  assert (Hstay : forall recs : list record,
             Forall (fun rec : record => keys rec = ks) recs ->
             fold_left (fun cols rec => fold_left add_label (keys rec) cols)
                       recs ks = ks).
  { induction recs as [|rec recs IH]; intros Hrecs; simpl; [reflexivity|].
    apply Forall_cons_iff in Hrecs. destruct Hrecs as [Hrec Hrest].
    rewrite Hrec, fold_add_label_known by auto. now apply IH. }
  destruct data as [|first rest]; [contradiction|].
  apply Forall_cons_iff in Hall. destruct Hall as [Hfirst Hrest]. simpl.
  rewrite Hfirst.
  rewrite (fold_add_label_fresh ks []) by exact Hnd. simpl.
  now apply Hstay.
Qed.

Lemma execute_query_frame_columns (env : Env) (self : SQLAgent.Agent)
      (sql_query : string) (w : World) (r : QueryResult) (w' : World) :
  SQLAgent.execute_query env self sql_query w = (Ok r, w') ->
  data r <> [] ->
  SQLAgent.frame_columns (data r) = distinct_labels (columns r).
Proof.
  intros Hexec Hne.
  assert (Hkeys : Forall (fun rec : record =>
                            keys rec = distinct_labels (columns r)) (data r)).
  { revert Hexec.
    unfold SQLAgent.execute_query. run_py.
    destruct (sqlite_connect env _ _) as [e|]; simpl.
    - intros H. injection H as <- _. constructor.
    - destruct (read_sql_query env _ _) as [df|e]; simpl;
        intros H; injection H as <- _; simpl.
      + apply to_dict_records_share_keys.
      + constructor. }
  apply frame_columns_shared_keys; auto using distinct_labels_nodup.
Qed.

(** The model of [pd.DataFrame(data)] in elementary terms: the column
    labels are the keys of all records without repetition, each at its first
    occurrence; a cell is the first value bound to the label in the record. *)
Lemma dict_get_find {V} (k : string) (d : pydict V) :
  dict_get k d
  = option_map snd (find (fun kv : string * V => String.eqb k (fst kv)) d).
Proof.
  induction d as [|[k' v'] d IH]; [reflexivity|]. simpl.
  now destruct (String.eqb k k').
Qed.

Lemma frame_column_cells (data : list record) (col : string) :
  SQLAgent.frame_column data col
  = map (fun rec : record =>
           match find (fun kv => String.eqb col (fst kv)) rec with
           | Some kv => snd kv
           | None => NaN
           end) data.
Proof.
  unfold SQLAgent.frame_column. apply map_ext. intros rec.
  rewrite dict_get_find. now destruct (find _ rec).
Qed.

Lemma frame_columns_flat (data : list record) (cols : list string) :
  fold_left (fun cols (rec : record) => fold_left add_label (keys rec) cols)
            data cols
  = fold_left add_label (flat_map (fun rec : record => map fst rec) data) cols.
Proof.
  revert cols. induction data as [|rec data IH]; intros cols; [reflexivity|].
  cbn [fold_left flat_map]. now rewrite fold_left_app, IH.
Qed.

Lemma frame_columns_first_occurrences (data : list record) :
  SQLAgent.frame_columns data
  = rev (nodup string_dec
               (rev (flat_map (fun rec : record => map fst rec) data))).
Proof.
  unfold SQLAgent.frame_columns. rewrite frame_columns_flat.
  apply distinct_labels_first_occurrences.
Qed.

Lemma join_all_concat (pieces : list string) :
  join_all pieces = String.concat "" pieces.
Proof.
  induction pieces as [|p [|q pieces] IH]; [reflexivity| |].
  - unfold join_all. simpl. apply append_nil_r.
  - change (join_all (p :: q :: pieces)) with (p ++ join_all (q :: pieces)).
    now rewrite IH.
Qed.

(** C5: an empty list gives the fixed marker.  Otherwise the summary gives
    the number of records, the keys of the first record, and, when there is
    a numeric column, one statistics entry for each of the first 3 numeric
    columns and for no other.  The columns are the keys of all the records,
    each at its first occurrence; the cells of a column are the values the
    records bind to it, NaN where a record has no such key; a column is
    numeric when the library says so of its cells; an entry gives the
    minimum and the maximum of the cells and their mean formatted with
    [.2f]. *)
Theorem summarize_data_spec (lib : PyLib) (data : list record) :
  match data with
  | [] => SQLAgent._summarize_data lib data = "No data returned"
  | first :: _ =>
      let labels :=
        rev (nodup string_dec
                   (rev (flat_map (fun rec : record => map fst rec) data))) in
      let cells (col : string) :=
        map (fun rec : record =>
               match find (fun kv => String.eqb col (fst kv)) rec with
               | Some kv => snd kv
               | None => NaN
               end) data in
      let numeric :=
        filter (fun col => is_number_dtype lib (cells col)) labels in
      let reported := firstn 3 numeric in
      (length reported = Nat.min 3 (length numeric)) /\
      SQLAgent._summarize_data lib data
      = "Dataset contains " ++ str_of_nat (length data) ++ " records\n"
        ++ "Columns: " ++ String.concat ", " (map fst first) ++ "\n"
        ++ match reported with
           | [] => ""
           | _ =>
               "\nNumeric summaries:\n"
               ++ String.concat ""
                    (map (fun col =>
                            col ++ ": min="
                                ++ str_scalar lib (series_min lib (cells col))
                                ++ ", max="
                                ++ str_scalar lib (series_max lib (cells col))
                                ++ ", avg="
                                ++ format_float lib ".2f"
                                     (series_mean lib (cells col))
                                ++ "\n")
                         reported)
           end
  end.
Proof.
  destruct data as [|first rest]; [reflexivity|].
  cbv zeta. split; [apply length_firstn|].
  rewrite <- join_all_concat.
  rewrite <- frame_columns_first_occurrences.
  rewrite (map_ext _ (SQLAgent.stat_line lib (first :: rest)))
    by (intros col; unfold SQLAgent.stat_line; cbv zeta;
        now rewrite <- frame_column_cells).
  rewrite (filter_ext _ (fun col => is_number_dtype lib
                           (SQLAgent.frame_column (first :: rest) col)))
    by (intros col; now rewrite <- frame_column_cells).
  fold (SQLAgent.numeric_cols lib (first :: rest)).
  unfold SQLAgent._summarize_data.
  destruct (SQLAgent.numeric_cols lib (first :: rest)) as [|col cols].
  - change (0 <? length (@nil string))%nat with false. cbv iota.
    change (firstn 3 (@nil string)) with (@nil string). cbv iota.
    rewrite !append_assoc. reflexivity.
  - change (0 <? length (col :: cols))%nat with true. cbv iota.
    rewrite stat_loop_pieces.
    change (firstn 3 (col :: cols)) with (col :: firstn 2 cols). cbv iota.
    rewrite !append_assoc. reflexivity.
Qed.

(** Records with different keys: the columns line lists the keys of the
    first record only; the frame has the keys of all records as columns. *)
Example summarize_ragged :
  SQLAgent._summarize_data scenario_lib
    [ [("n", VInt 1)]; [("label", VStr "x"); ("n", VInt 2)] ]
  = "Dataset contains 2 records\nColumns: n\n\nNumeric summaries:\nn: min=1, max=2, avg=1.50\n".
Proof. reflexivity. Qed.

(** Four integer columns: statistics for a, b and c, none for d. *)
Example summarize_four_numeric :
  SQLAgent._summarize_data scenario_lib four_numeric_rows
  = "Dataset contains 1 records\nColumns: a, b, label, c, d\n\nNumeric summaries:\na: min=42, max=42, avg=42.00\nb: min=42, max=42, avg=42.00\nc: min=42, max=42, avg=42.00\n".
Proof. reflexivity. Qed.

(** ** The handler *)

Lemma execute_query_total (env : Env) (self : SQLAgent.Agent)
      (sql_query : string) (w : World) :
  exists r w',
    SQLAgent.execute_query env self sql_query w = (Ok r, w') /\
    calls QueryGenerator (history w') = calls QueryGenerator (history w).
Proof.
  unfold SQLAgent.execute_query. run_py.
  destruct (sqlite_connect env _ _) as [e|]; simpl.
  - eexists _, _. split; reflexivity.
  - destruct (read_sql_query env _ _) as [df|e]; simpl;
      eexists _, _; split; reflexivity.
Qed.

Lemma generate_insights_total (lib : PyLib) (env : Env) (question : JValue)
      (query_results : QueryResult) (w : World) :
  exists text w',
    SQLAgent.generate_insights lib env question query_results w
    = (Ok text, w').
Proof.
  unfold SQLAgent.generate_insights. run_py.
  destruct (success query_results); simpl.
  - destruct (completion_create env _ _) as [[[|text rest]]|e]; simpl;
      eexists _, _; reflexivity.
  - eexists _, _; reflexivity.
Qed.

(** The handler, outcome by outcome. *)
Lemma ask_question_cases (lib : PyLib) (env : Env) (agent : SQLAgent.Agent)
      (request : Request) (w : World) :
  ask_question lib env agent request w
  = match asked request with
    | None => (Ok (rejection request), w)
    | Some question =>
        match SQLAgent.generate_sql_query lib env agent question w with
        | (Raise e, w1) => (Ok (server_error e), w1)
        | (Ok sql_query, w1) =>
            match query_truthy sql_query with
            | None => (Ok generation_error, w1)
            | Some sql_query =>
                match SQLAgent.execute_query env agent sql_query w1 with
                | (Raise e, w2) => (Ok (server_error e), w2)
                | (Ok results, w2) =>
                    match SQLAgent.generate_insights lib env question
                                                     results w2 with
                    | (Raise e, w3) => (Ok (server_error e), w3)
                    | (Ok insights, w3) =>
                        (Ok (if json_serializable results then
                               {| body := AnswerBody question sql_query
                                            results insights
                                            (now_isoformat env (history w3));
                                  status := 200 |}
                             else server_error not_serializable),
                         after_now w3)
                    end
                end
            end
        end
    end.
Proof.
  unfold ask_question, try_except, ask_question_try, asked, rejection.
  unfold bind at 1. unfold lift_result.
  destruct (get_json request) as [data|e]; [|reflexivity].
  unfold bind at 1.
  destruct data; try reflexivity.
  unfold py_get, ret.
  destruct (truthy _); [|reflexivity]. cbn [negb].
  unfold bind at 1.
  destruct (SQLAgent.generate_sql_query lib env agent _ w)
    as [[sql_query|e] w1]; [|reflexivity].
  destruct (query_truthy sql_query) as [sql|]; [|reflexivity].
  unfold bind at 1.
  destruct (SQLAgent.execute_query env agent sql w1)
    as [[results|e] w2]; [|reflexivity].
  unfold bind at 1.
  destruct (SQLAgent.generate_insights lib env _ results w2)
    as [[insights|e] w3]; [|reflexivity].
  unfold bind, now, jsonify.
  destruct (json_serializable results); reflexivity.
Qed.

(** Query generation enters no other component and leaves the store alone. *)
Lemma generate_sql_query_footprint (lib : PyLib) (env : Env)
      (self : SQLAgent.Agent) (question : JValue) (w : World) :
  exists res w',
    SQLAgent.generate_sql_query lib env self question w = (Ok res, w') /\
    calls QueryExecutor (history w') = calls QueryExecutor (history w) /\
    calls ResultSummarizer (history w') = calls ResultSummarizer (history w) /\
    calls InsightComposer (history w') = calls InsightComposer (history w) /\
    store_calls (history w') = store_calls (history w) /\
    open_conns w' = open_conns w.
Proof.
  unfold SQLAgent.generate_sql_query. run_py.
  destruct (completion_create env _ _) as [[[|text rest]]|e]; simpl;
    eexists _, _; (split; [reflexivity|]); simpl; auto 10.
Qed.

Lemma query_truthy_some (sql_query : option string) (s : string) :
  query_truthy sql_query = Some s -> sql_query = Some s /\ str_truthy s = true.
Proof.
  destruct sql_query as [s0|]; simpl; [|discriminate].
  destruct (str_truthy s0) eqn:Ht; [|discriminate].
  intros H. injection H as <-. auto.
Qed.

(** A failure result has no rows, so it can always be serialized. *)
Lemma failed_result_serializable (env : Env) (self : SQLAgent.Agent)
      (sql_query : string) (w : World) (r : QueryResult) (w' : World) :
  SQLAgent.execute_query env self sql_query w = (Ok r, w') ->
  success r = false -> json_serializable r = true.
Proof.
  unfold SQLAgent.execute_query. run_py.
  destruct (sqlite_connect env _ _) as [e|]; simpl.
  - intros H _. now injection H as <- _.
  - destruct (read_sql_query env _ _) as [df|e]; simpl;
      intros H Hs; injection H as <- _; [discriminate | reflexivity].
Qed.

(** C8: a request without a usable question (body unreadable or not a
    dict, key missing, question empty) is answered with an error response
    and the world is left as it was: no component ran.  When the query
    generator returns [None], the answer is the generation error, and
    neither the executor, the summarizer nor the insight composer was
    entered, nor was the store reached.  A generated query, in contrast, is
    never answered with the generation error: it is executed, and when the
    execution fails the answer is a status-200 bundle that carries the
    failure result. *)
Theorem ask_question_error_paths (lib : PyLib) (env : Env)
        (agent : SQLAgent.Agent) (request : Request) (w : World) :
  (asked request = None ->
   ask_question lib env agent request w = (Ok (rejection request), w) /\
   is_error (rejection request) = true) /\
  (forall question,
      asked request = Some question ->
      fst (SQLAgent.generate_sql_query lib env agent question w) = Ok None ->
      exists w',
        ask_question lib env agent request w = (Ok generation_error, w') /\
        is_error generation_error = true /\
        calls QueryExecutor (history w') = calls QueryExecutor (history w) /\
        calls ResultSummarizer (history w')
        = calls ResultSummarizer (history w) /\
        calls InsightComposer (history w') = calls InsightComposer (history w) /\
        store_calls (history w') = store_calls (history w)) /\
  (forall question sql_query,
      asked request = Some question ->
      fst (SQLAgent.generate_sql_query lib env agent question w)
      = Ok (Some sql_query) ->
      str_truthy sql_query = true ->
      exists resp w' results w2,
        ask_question lib env agent request w = (Ok resp, w') /\
        resp <> generation_error /\
        SQLAgent.execute_query env agent sql_query
          (snd (SQLAgent.generate_sql_query lib env agent question w))
        = (Ok results, w2) /\
        (success results = false ->
         exists insights timestamp,
           resp = {| body := AnswerBody question sql_query results insights
                                        timestamp;
                     status := 200 |})).
Proof.
  rewrite ask_question_cases. split; [|split].
  - intros Hnone. rewrite Hnone. split; [reflexivity|].
    unfold rejection. destruct (get_json request) as [[]|]; reflexivity.
  - intros question Hq Hgen. rewrite Hq.
    destruct (generate_sql_query_footprint lib env agent question w)
      as [res [w' [Heq Hfoot]]].
    rewrite Heq in *. simpl in Hgen. injection Hgen as ->. simpl.
    exists w'. split; [reflexivity|]. split; [reflexivity|].
    tauto.
  - intros question sql_query Hq Hgen Htruthy. rewrite Hq.
    destruct (SQLAgent.generate_sql_query lib env agent question w)
      as [res w1]. simpl in Hgen. subst res. cbn [snd].
    unfold query_truthy. rewrite Htruthy.
    destruct (execute_query_total env agent sql_query w1)
      as [results [w2 [Hexec _]]]. rewrite Hexec.
    destruct (generate_insights_total lib env question results w2)
      as [insights [w3 Hins]]. rewrite Hins.
    eexists _, _, results, w2. split; [reflexivity|].
    split; [|split; [reflexivity|]].
    + destruct (json_serializable results); discriminate.
    + intros Hfail.
      rewrite (failed_result_serializable env agent sql_query w1 results w2
                 Hexec Hfail).
      eauto.
Qed.

Lemma ask_question_error_paths_witness :
  (asked (ask "") = None /\
   ask_question scenario_lib env_outage scenario_agent (ask "") world0
   = (Ok (rejection (ask "")), world0) /\
   is_error (rejection (ask "")) = true) /\
  (asked ask_nothing = None /\
   ask_question scenario_lib env_outage scenario_agent ask_nothing world0
   = (Ok {| body := ErrorBody "Question is required"; status := 400 |},
      world0)) /\
  (asked (ask "How many customers are active?") = Some active_question /\
   fst (SQLAgent.generate_sql_query scenario_lib env_outage scenario_agent
                                    active_question world0) = Ok None /\
   exists w',
     ask_question scenario_lib env_outage scenario_agent
                  (ask "How many customers are active?") world0
     = (Ok generation_error, w') /\
     is_error generation_error = true /\
     calls QueryExecutor (history w') = calls QueryExecutor (history world0) /\
     calls ResultSummarizer (history w')
     = calls ResultSummarizer (history world0) /\
     calls InsightComposer (history w')
     = calls InsightComposer (history world0) /\
     store_calls (history w') = store_calls (history world0)) /\
  (asked (ask "How many orders?") = Some (JStr "How many orders?") /\
   fst (SQLAgent.generate_sql_query scenario_lib env_no_table scenario_agent
                                    (JStr "How many orders?") world0)
   = Ok (Some "SELECT * FROM ordrs") /\
   str_truthy "SELECT * FROM ordrs" = true /\
   exists resp w' results w2,
     ask_question scenario_lib env_no_table scenario_agent
                  (ask "How many orders?") world0
     = (Ok resp, w') /\
     resp <> generation_error /\
     SQLAgent.execute_query env_no_table scenario_agent "SELECT * FROM ordrs"
       (snd (SQLAgent.generate_sql_query scenario_lib env_no_table
                                         scenario_agent
                                         (JStr "How many orders?") world0))
     = (Ok results, w2) /\
     (success results = false ->
      exists insights timestamp,
        resp = {| body := AnswerBody (JStr "How many orders?")
                                     "SELECT * FROM ordrs" results insights
                                     timestamp;
                  status := 200 |})).
Proof.
  split; [|split; [|split]].
  - split; [reflexivity|].
    apply (proj1 (ask_question_error_paths scenario_lib env_outage
                    scenario_agent (ask "") world0)).
    reflexivity.
  - split; [reflexivity|].
    apply (proj1 (ask_question_error_paths scenario_lib env_outage
                    scenario_agent ask_nothing world0)).
    reflexivity.
  - split; [reflexivity|]. split; [reflexivity|].
    apply (proj1 (proj2 (ask_question_error_paths scenario_lib env_outage
                           scenario_agent
                           (ask "How many customers are active?") world0))
             active_question); reflexivity.
  - split; [reflexivity|]. split; [reflexivity|]. split; [reflexivity|].
    exact (proj2 (proj2 (ask_question_error_paths scenario_lib env_no_table
                           scenario_agent (ask "How many orders?") world0))
             (JStr "How many orders?") "SELECT * FROM ordrs"
             eq_refl eq_refl eq_refl).
Defined.

(** Scenario C end to end: the statement fails in the store, and the
    caller still gets a status-200 bundle carrying the failure result and
    the fixed insight message. *)
Example ask_question_failed_execution :
  fst (ask_question scenario_lib env_no_table scenario_agent
                    (ask "How many orders?") world0)
  = Ok {| body := AnswerBody (JStr "How many orders?") "SELECT * FROM ordrs"
                    failed_result SQLAgent.error_insight
                    "2024-01-01T00:00:06";
          status := 200 |}.
Proof. reflexivity. Qed.

(** A generated query whose rows the response encoder cannot write: the
    statement was executed and the narrative composed, and the caller gets
    the handler's server error, not a bundle. *)
Example ask_question_blob_is_server_error :
  fst (ask_question scenario_lib env_blob scenario_agent
                    (ask "Show a photo") world0)
  = Ok {| body := ErrorBody "Server error: Object of type bytes is not JSON serializable";
          status := 500 |}.
Proof. reflexivity. Qed.

(** C10: when the service answers the query prompt with whitespace only
    (any sequence of the characters Python counts as white space, the
    no-break space and the other Unicode spaces included), the generator
    returns the empty string, and the handler answers as it does for [None]:
    with the generation error, without entering the executor or reaching the
    store. *)
Theorem blank_completion_is_generation_error (lib : PyLib) (env : Env)
        (agent : SQLAgent.Agent) (request : Request) (w : World)
        (question : JValue) (chars : list string) (rest : list string) :
  asked request = Some question ->
  Forall (fun c => In c whitespace) chars ->
  completion_create env (EvEnter QueryGenerator :: history w)
                    (SQLAgent.sql_request lib agent question)
  = Ok {| choices := String.concat "" chars :: rest |} ->
  exists w',
    SQLAgent.generate_sql_query lib env agent question w
    = (Ok (Some ""), w') /\
    query_truthy (Some "") = query_truthy None /\
    ask_question lib env agent request w = (Ok generation_error, w') /\
    calls QueryExecutor (history w') = calls QueryExecutor (history w) /\
    store_calls (history w') = store_calls (history w) /\
    open_conns w' = open_conns w.
Proof.
  intros Hq Hchars Hservice.
  assert (Hblank : all_space (String.concat "" chars) = true).
  { apply all_space_blank. now exists chars. }
  rewrite ask_question_cases, Hq.
  unfold SQLAgent.generate_sql_query. run_py.
  rewrite Hservice. simpl. rewrite (strip_all_space _ Hblank). simpl.
  eexists. repeat split.
Qed.

Lemma blank_completion_is_generation_error_witness :
  asked (ask "How many customers are active?") = Some active_question /\
  Forall (fun c => In c whitespace) [" "; LF; NBSP; EM_SPACE; " "] /\
  completion_create env_blank (EvEnter QueryGenerator :: history world0)
    (SQLAgent.sql_request scenario_lib scenario_agent active_question)
  = Ok {| choices := [String.concat "" [" "; LF; NBSP; EM_SPACE; " "]] |} /\
  exists w',
    SQLAgent.generate_sql_query scenario_lib env_blank scenario_agent
                                active_question world0
    = (Ok (Some ""), w') /\
    query_truthy (Some "") = query_truthy None /\
    ask_question scenario_lib env_blank scenario_agent
                 (ask "How many customers are active?") world0
    = (Ok generation_error, w') /\
    calls QueryExecutor (history w') = calls QueryExecutor (history world0) /\
    store_calls (history w') = store_calls (history world0) /\
    open_conns w' = open_conns world0.
Proof.
  assert (Hchars : Forall (fun c => In c whitespace)
                          [" "; LF; NBSP; EM_SPACE; " "]).
  { repeat (apply Forall_cons; [in_whitespace|]). apply Forall_nil. }
  split; [reflexivity|]. split; [exact Hchars|]. split; [reflexivity|].
  exact (blank_completion_is_generation_error scenario_lib env_blank
           scenario_agent (ask "How many customers are active?") world0
           active_question [" "; LF; NBSP; EM_SPACE; " "] []
           eq_refl Hchars eq_refl).
Defined.

(** ** Two runs of the pipeline *)

(** The output of each component as a function of what the outside
    parties answer. *)
Lemma generate_sql_query_result (lib : PyLib) (env : Env)
      (self : SQLAgent.Agent) (question : JValue) (w : World) :
  fst (SQLAgent.generate_sql_query lib env self question w)
  = Ok match completion_create env (EvEnter QueryGenerator :: history w)
                               (SQLAgent.sql_request lib self question) with
       | Ok {| choices := text :: _ |} => Some (strip text)
       | _ => None
       end.
Proof.
  unfold SQLAgent.generate_sql_query. run_py.
  destruct (completion_create env _ _) as [[[|text rest]]|e]; reflexivity.
Qed.

Lemma execute_query_result (env : Env) (self : SQLAgent.Agent)
      (sql_query : string) (w : World) :
  fst (SQLAgent.execute_query env self sql_query w)
  = Ok match sqlite_connect env (EvEnter QueryExecutor :: history w)
                            (SQLAgent.db_path self) with
       | Some e => {| success := false; error := Some (exn_msg e);
                      data := []; columns := []; row_count := 0 |}
       | None =>
           match read_sql_query env
                   (EvConnect (SQLAgent.db_path self) (next_conn w)
                      :: EvEnter QueryExecutor :: history w) sql_query with
           | Ok df => {| success := true; error := None;
                         data := to_dict_records df;
                         columns := df_columns df;
                         row_count := df_len df |}
           | Raise e => {| success := false; error := Some (exn_msg e);
                           data := []; columns := []; row_count := 0 |}
           end
       end.
Proof.
  unfold SQLAgent.execute_query. run_py.
  destruct (sqlite_connect env _ _) as [e|]; simpl; [reflexivity|].
  destruct (read_sql_query env _ _) as [df|e]; reflexivity.
Qed.

Lemma generate_insights_result (lib : PyLib) (env : Env) (question : JValue)
      (query_results : QueryResult) (w : World) :
  fst (SQLAgent.generate_insights lib env question query_results w)
  = Ok (if success query_results then
          match completion_create env
                  (EvEnter ResultSummarizer :: EvEnter InsightComposer
                     :: history w)
                  (SQLAgent.insight_request lib question
                     (SQLAgent._summarize_data lib (data query_results))) with
          | Ok {| choices := text :: _ |} => strip text
          | _ => SQLAgent.degraded_insight (length (data query_results))
          end
        else SQLAgent.error_insight).
Proof.
  unfold SQLAgent.generate_insights. run_py.
  destruct (success query_results); simpl; [|reflexivity].
  destruct (completion_create env _ _) as [[[|text rest]]|e]; reflexivity.
Qed.

(** C9, as stated, does not hold: with the generator and the executor
    returning the same outputs, two runs still differ in their insights when
    the completion service words its narrative differently. *)
Lemma idempotence_needs_same_insight_service :
  ~ idempotent_given_generator_and_executor.
Proof.
  intros H.
  specialize (H scenario_lib scenario_agent env_ok env_ok'
                (ask "How many customers are active?") world0).
  assert (Hgen : same_generator scenario_lib scenario_agent env_ok env_ok').
  { intros question w1 w2. now rewrite !generate_sql_query_result. }
  assert (Hexec : same_executor scenario_agent env_ok env_ok').
  { intros sql_query w1 w2. now rewrite !execute_query_result. }
  specialize (H Hgen Hexec). vm_compute in H. discriminate.
Qed.

(** C9 (amended): two runs on the same request in which the query
    generator returns the same output, the query executor returns the same
    output, and the completion service gives the same outcome for the
    insight request, produce responses that agree in everything but the
    timestamp: the summary and both prompts are functions of the question,
    the schema and the result. *)
Theorem ask_question_idempotent_content (lib : PyLib)
        (agent : SQLAgent.Agent) (env1 env2 : Env) (request : Request)
        (w1 w2 : World) :
  same_generator_output lib agent env1 env2 request w1 w2 ->
  same_executor_output lib agent env1 env2 request w1 w2 ->
  same_insight_outcome lib agent env1 env2 request w1 w2 ->
  run_content (ask_question lib env1 agent request w1)
  = run_content (ask_question lib env2 agent request w2).
Proof.
  intros Hgen Hexec Hins. rewrite !ask_question_cases.
  destruct (asked request) as [question|] eqn:Hq; [|reflexivity].
  specialize (Hgen question Hq).
  pose proof (fun sql => Hexec question sql Hq) as Hexec'.
  pose proof (fun sql results => Hins question sql results Hq) as Hins'.
  clear Hexec Hins.
  unfold insight_history, after_execution, after_generation in *.
  destruct (SQLAgent.generate_sql_query lib env1 agent question w1)
    as [out1 wa1].
  destruct (SQLAgent.generate_sql_query lib env2 agent question w2)
    as [out2 wa2].
  cbn [fst snd] in *. subst out2.
  destruct out1 as [sql_query|e]; [|reflexivity].
  destruct (query_truthy sql_query) as [sql|] eqn:Hsql; [|reflexivity].
  apply query_truthy_some in Hsql. destruct Hsql as [-> Htruthy].
  pose proof (Hexec' sql eq_refl Htruthy) as Hexec.
  pose proof (fun results => Hins' sql results eq_refl Htruthy) as Hins.
  clear Hexec' Hins'.
  destruct (SQLAgent.execute_query env1 agent sql wa1) as [res1 wb1].
  destruct (SQLAgent.execute_query env2 agent sql wa2) as [res2 wb2].
  cbn [fst snd] in *. subst res2.
  destruct res1 as [results|e]; [|reflexivity].
  assert (Hsame :
            fst (SQLAgent.generate_insights lib env1 question results wb1)
            = fst (SQLAgent.generate_insights lib env2 question results wb2)).
  { rewrite !generate_insights_result.
    destruct (success results) eqn:Hs; [|reflexivity].
    now rewrite (Hins results eq_refl Hs). }
  destruct (SQLAgent.generate_insights lib env1 question results wb1)
    as [ins1 wc1].
  destruct (SQLAgent.generate_insights lib env2 question results wb2)
    as [ins2 wc2].
  simpl in Hsame. subst ins2.
  destruct ins1 as [insights|e]; [|reflexivity].
  unfold run_content. cbn [fst].
  destruct (json_serializable results); reflexivity.
Qed.

Lemma ask_question_idempotent_content_witness :
  same_generator_output scenario_lib scenario_agent env_ok env_ok_later
    (ask "How many customers are active?") world0 world0 /\
  same_executor_output scenario_lib scenario_agent env_ok env_ok_later
    (ask "How many customers are active?") world0 world0 /\
  same_insight_outcome scenario_lib scenario_agent env_ok env_ok_later
    (ask "How many customers are active?") world0 world0 /\
  run_content (ask_question scenario_lib env_ok scenario_agent
                            (ask "How many customers are active?") world0)
  = run_content (ask_question scenario_lib env_ok_later scenario_agent
                              (ask "How many customers are active?") world0).
Proof.
  assert (Hgen : same_generator_output scenario_lib scenario_agent env_ok
                   env_ok_later (ask "How many customers are active?")
                   world0 world0).
  { intros q Hq. reflexivity. }
  assert (Hexec : same_executor_output scenario_lib scenario_agent env_ok
                    env_ok_later (ask "How many customers are active?")
                    world0 world0).
  { intros q sql Hq Hsql Ht. reflexivity. }
  assert (Hins : same_insight_outcome scenario_lib scenario_agent env_ok
                   env_ok_later (ask "How many customers are active?")
                   world0 world0).
  { intros q sql results Hq Hsql Ht Hres Hs. reflexivity. }
  split; [exact Hgen|]. split; [exact Hexec|]. split; [exact Hins|].
  apply (ask_question_idempotent_content scenario_lib scenario_agent env_ok
           env_ok_later (ask "How many customers are active?") world0 world0
           Hgen Hexec Hins).
Defined.

(** Scenario A end to end, and the same run at a later time: the bundles
    differ in the timestamp only. *)
Example ask_question_scenario_a :
  fst (ask_question scenario_lib env_ok scenario_agent
                    (ask "How many customers are active?") world0)
  = Ok {| body := AnswerBody active_question count_query
                    {| success := true; error := None;
                       data := [ [("COUNT(*)", VInt 42)] ];
                       columns := ["COUNT(*)"]; row_count := 1 |}
                    "42 customers are active."
                    "2024-01-01T00:00:09";
          status := 200 |}
  /\ fst (ask_question scenario_lib env_ok_later scenario_agent
                       (ask "How many customers are active?") world0)
     = Ok {| body := AnswerBody active_question count_query
                       {| success := true; error := None;
                          data := [ [("COUNT(*)", VInt 42)] ];
                          columns := ["COUNT(*)"]; row_count := 1 |}
                       "42 customers are active."
                       "2025-06-01T12:00:00";
             status := 200 |}.
Proof. split; reflexivity. Qed.

(** ** What each method does to the world *)

Lemma generate_sql_query_effects (lib : PyLib) (env : Env)
      (self : SQLAgent.Agent) (question : JValue) (w : World) :
  exists res w',
    SQLAgent.generate_sql_query lib env self question w = (Ok res, w') /\
    completion_calls (history w') = S (completion_calls (history w)) /\
    calls QueryGenerator (history w') = S (calls QueryGenerator (history w)) /\
    calls QueryExecutor (history w') = calls QueryExecutor (history w) /\
    calls ResultSummarizer (history w') = calls ResultSummarizer (history w) /\
    calls InsightComposer (history w') = calls InsightComposer (history w) /\
    statements (history w') = statements (history w) /\
    open_conns w' = open_conns w /\
    next_conn w' = next_conn w.
Proof.
  unfold SQLAgent.generate_sql_query. run_py.
  destruct (completion_create env _ _) as [[[|text rest]]|e]; simpl;
    eexists _, _; (split; [reflexivity|]); simpl; auto 10.
Qed.

Lemma execute_query_effects (env : Env) (self : SQLAgent.Agent)
      (sql_query : string) (w : World) :
  exists r w',
    SQLAgent.execute_query env self sql_query w = (Ok r, w') /\
    completion_calls (history w') = completion_calls (history w) /\
    calls QueryGenerator (history w') = calls QueryGenerator (history w) /\
    calls QueryExecutor (history w') = S (calls QueryExecutor (history w)) /\
    calls ResultSummarizer (history w') = calls ResultSummarizer (history w) /\
    calls InsightComposer (history w') = calls InsightComposer (history w) /\
    (next_conn w <= next_conn w' <= S (next_conn w))%nat /\
    statements (history w')
    = match sqlite_connect env (EvEnter QueryExecutor :: history w)
                           (SQLAgent.db_path self) with
      | Some _ => statements (history w)
      | None => sql_query :: statements (history w)
      end.
Proof.
  unfold SQLAgent.execute_query. run_py.
  destruct (sqlite_connect env _ _) as [e|]; simpl.
  - eexists _, _. split; [reflexivity|]. simpl. repeat split; auto.
  - destruct (read_sql_query env _ _) as [df|e]; simpl;
      eexists _, _; (split; [reflexivity|]); simpl; repeat split; auto.
Qed.

Lemma generate_insights_effects (lib : PyLib) (env : Env) (question : JValue)
      (query_results : QueryResult) (w : World) :
  exists text w',
    SQLAgent.generate_insights lib env question query_results w
    = (Ok text, w') /\
    completion_calls (history w')
    = ((if success query_results then 1 else 0)
       + completion_calls (history w))%nat /\
    calls QueryGenerator (history w') = calls QueryGenerator (history w) /\
    calls QueryExecutor (history w') = calls QueryExecutor (history w) /\
    calls ResultSummarizer (history w')
    = ((if success query_results then 1 else 0)
       + calls ResultSummarizer (history w))%nat /\
    calls InsightComposer (history w') = S (calls InsightComposer (history w)) /\
    statements (history w') = statements (history w) /\
    store_calls (history w') = store_calls (history w) /\
    open_conns w' = open_conns w /\
    next_conn w' = next_conn w.
Proof.
  unfold SQLAgent.generate_insights. run_py.
  destruct (success query_results); simpl.
  - destruct (completion_create env _ _) as [[[|text rest]]|e]; simpl;
      eexists _, _; (split; [reflexivity|]); simpl; auto 12.
  - eexists _, _. split; [reflexivity|]. simpl. auto 12.
Qed.

(** ** More on the handler *)

Lemma rejection_is_error (request : Request) :
  exists msg, body (rejection request) = ErrorBody msg.
Proof.
  unfold rejection. destruct (get_json request) as [[]|]; simpl; eauto.
Qed.

(** A bundle comes from one pass through the three stages. *)
Lemma answer_stages (lib : PyLib) (env : Env) (agent : SQLAgent.Agent)
      (request : Request) (w : World) (resp : Response) (w' : World)
      (q : JValue) (sql : string) (r : QueryResult) (i t : string) :
  ask_question lib env agent request w = (Ok resp, w') ->
  body resp = AnswerBody q sql r i t ->
  asked request = Some q /\ str_truthy sql = true /\ status resp = 200 /\
  exists w1 w2 w3,
    SQLAgent.generate_sql_query lib env agent q w = (Ok (Some sql), w1) /\
    SQLAgent.execute_query env agent sql w1 = (Ok r, w2) /\
    SQLAgent.generate_insights lib env q r w2 = (Ok i, w3) /\
    t = now_isoformat env (history w3) /\
    w' = after_now w3.
Proof.
  rewrite ask_question_cases.
  destruct (asked request) as [question|].
  2:{ intros H Hb. injection H as <- _.
      destruct (rejection_is_error request) as [msg Hmsg]. congruence. }
  destruct (SQLAgent.generate_sql_query lib env agent question w)
    as [[sql_query|e] w1] eqn:Hgen.
  2:{ intros H Hb. injection H as <- _. discriminate. }
  destruct (query_truthy sql_query) as [s|] eqn:Hs.
  2:{ intros H Hb. injection H as <- _. discriminate. }
  apply query_truthy_some in Hs. destruct Hs as [-> Hs].
  destruct (SQLAgent.execute_query env agent s w1)
    as [[results|e] w2] eqn:Hexec.
  2:{ intros H Hb. injection H as <- _. discriminate. }
  destruct (SQLAgent.generate_insights lib env question results w2)
    as [[insights|e] w3] eqn:Hins.
  2:{ intros H Hb. injection H as <- _. discriminate. }
  intros H Hb. injection H as <- <-.
  destruct (json_serializable results); [|discriminate Hb]. simpl in Hb.
  injection Hb as Hq Hsql Hr Hi Ht. subst.
  split; [reflexivity|]. split; [assumption|]. split; [reflexivity|].
  exists w1, w2, w3. repeat split; assumption.
Qed.

(** X1: the handler never raises.  Its response is a status-200 bundle, or
    the status-400 error for a missing question with the world untouched,
    or a status-500 error. *)
Theorem ask_question_always_answers (lib : PyLib) (env : Env)
        (agent : SQLAgent.Agent) (request : Request) (w : World) :
  exists resp w',
    ask_question lib env agent request w = (Ok resp, w') /\
    ((status resp = 200 /\ is_answer resp = true) \/
     (status resp = 400 /\ body resp = ErrorBody "Question is required"
      /\ w' = w) \/
     (status resp = 500 /\ is_error resp = true)).
Proof.
  rewrite ask_question_cases.
  destruct (asked request) as [question|] eqn:Hasked.
  - destruct (generate_sql_query_effects lib env agent question w)
      as [res [w1 [-> _]]].
    destruct (query_truthy res) as [sql|].
    + destruct (execute_query_effects env agent sql w1)
        as [r [w2 [-> _]]].
      destruct (generate_insights_effects lib env question r w2)
        as [text [w3 [-> _]]].
      eexists _, _. split; [reflexivity|].
      destruct (json_serializable r).
      * left. split; reflexivity.
      * right. right. split; reflexivity.
    + eexists _, _. split; [reflexivity|]. right. right. split; reflexivity.
  - eexists _, _. split; [reflexivity|]. right.
    unfold rejection. destruct (get_json request) as [[]|]; simpl; auto.
Qed.

(** X2: one request costs at most two completion calls, one connection and
    one statement, and enters each component at most once: nothing is
    retried. *)
Theorem ask_question_call_budget (lib : PyLib) (env : Env)
        (agent : SQLAgent.Agent) (request : Request) (w : World) :
  exists resp w',
    ask_question lib env agent request w = (Ok resp, w') /\
    (completion_calls (history w') <= 2 + completion_calls (history w))%nat /\
    (forall c, calls c (history w') <= 1 + calls c (history w))%nat /\
    (length (statements (history w'))
     <= 1 + length (statements (history w)))%nat /\
    (next_conn w' <= 1 + next_conn w)%nat.
Proof.
  rewrite ask_question_cases.
  destruct (asked request) as [question|].
  2:{ eexists _, _. split; [reflexivity|].
      repeat split; lia. }
  destruct (generate_sql_query_effects lib env agent question w)
    as [res [w1 [-> [Hc1 [Hg1 [He1 [Hs1 [Hi1 [Hst1 [_ Hn1]]]]]]]]]].
  destruct (query_truthy res) as [sql|].
  2:{ eexists _, _. split; [reflexivity|].
      rewrite Hst1. repeat split; try lia. intros []; lia. }
  destruct (execute_query_effects env agent sql w1)
    as [r [w2 [-> [Hc2 [Hg2 [He2 [Hs2 [Hi2 [Hn2 Hst2]]]]]]]]].
  destruct (generate_insights_effects lib env question r w2)
    as [text [w3 [-> [Hc3 [Hg3 [He3 [Hs3 [Hi3 [Hst3 [_ [_ Hn3]]]]]]]]]]].
  eexists _, _. split; [reflexivity|].
  change (history (after_now w3)) with (EvNow :: history w3).
  change (next_conn (after_now w3)) with (next_conn w3).
  change (completion_calls (EvNow :: history w3))
    with (completion_calls (history w3)).
  change (statements (EvNow :: history w3)) with (statements (history w3)).
  repeat split.
  - destruct (success r); lia.
  - intros c.
    change (calls c (EvNow :: history w3)) with (calls c (history w3)).
    destruct c; destruct (success r); lia.
  - rewrite Hst3, Hst2, Hst1. destruct (sqlite_connect env _ _); simpl; lia.
  - lia.
Qed.

Lemma execute_query_statements (env : Env) (self : SQLAgent.Agent)
      (sql_query : string) (w : World) (r : QueryResult) (w' : World) :
  SQLAgent.execute_query env self sql_query w = (Ok r, w') ->
  row_count r = length (data r) /\
  (statements (history w') = sql_query :: statements (history w) \/
   (success r = false /\ statements (history w') = statements (history w))).
Proof.
  unfold SQLAgent.execute_query. run_py.
  destruct (sqlite_connect env _ _) as [e|]; simpl.
  - intros H. injection H as <- <-. simpl. auto.
  - destruct (read_sql_query env _ _) as [df|e]; simpl;
      intros H; injection H as <- <-; simpl; split; auto.
    symmetry. apply to_dict_records_length.
Qed.

(** X3: the query of a bundle is never empty and is the text of the first
    choice of the completion without its leading and trailing whitespace
    (Unicode white space included): the choice is the query between two
    runs of white space characters, and the query neither starts nor ends
    with one.  The query is what the executor was given, and the only
    statement the request sent to the store, unchanged, is that text. *)
Theorem answer_executes_generated_text (lib : PyLib) (env : Env)
        (agent : SQLAgent.Agent) (request : Request) (w : World)
        (resp : Response) (w' : World)
        (q : JValue) (sql : string) (r : QueryResult) (i t : string) :
  ask_question lib env agent request w = (Ok resp, w') ->
  body resp = AnswerBody q sql r i t ->
  sql <> "" /\
  (exists text rest,
      completion_create env (EvEnter QueryGenerator :: history w)
                        (SQLAgent.sql_request lib agent q)
      = Ok {| choices := text :: rest |} /\
      trimmed_of text sql) /\
  (exists w1 w2,
      SQLAgent.execute_query env agent sql w1 = (Ok r, w2)) /\
  (statements (history w') = sql :: statements (history w) \/
   (success r = false /\ statements (history w') = statements (history w))).
Proof.
  intros Hrun Hbody.
  destruct (answer_stages lib env agent request w resp w' q sql r i t
              Hrun Hbody)
    as [Hq [Hs [_ [w1 [w2 [w3 [Hgen [Hexec [Hins [_ ->]]]]]]]]]].
  split; [|split; [|split]].
  - intros ->. discriminate.
  - pose proof (generate_sql_query_result lib env agent q w) as Hres.
    rewrite Hgen in Hres. simpl in Hres.
    destruct (completion_create env _ _) as [[[|text rest]]|e];
      try discriminate.
    injection Hres as ->.
    exists text, rest. split; [reflexivity | apply strip_trimmed].
  - eauto.
  - destruct (generate_sql_query_effects lib env agent q w)
      as [res [w1' [Heq [_ [_ [_ [_ [_ [Hst1 _]]]]]]]]].
    rewrite Hgen in Heq. injection Heq as <- <-.
    destruct (generate_insights_effects lib env q r w2)
      as [text [w3' [Heq [_ [_ [_ [_ [_ [Hst3 _]]]]]]]]].
    rewrite Hins in Heq. injection Heq as <- <-.
    change (statements (history (after_now w3)))
      with (statements (history w3)).
    rewrite Hst3, <- Hst1.
    apply (execute_query_statements env agent sql w1 r w2 Hexec).
Qed.

Lemma answer_executes_generated_text_witness :
  padded_run = (Ok padded_response, snd padded_run) /\
  body padded_response
  = AnswerBody active_question count_query count_result
               "42 customers are active." "2024-01-01T00:00:09" /\
  count_query <> "" /\
  (exists text rest,
      completion_create env_padded
        (EvEnter QueryGenerator :: history world0)
        (SQLAgent.sql_request scenario_lib scenario_agent active_question)
      = Ok {| choices := text :: rest |} /\
      trimmed_of text count_query) /\
  (exists w1 w2,
      SQLAgent.execute_query env_padded scenario_agent count_query w1
      = (Ok count_result, w2)) /\
  (statements (history (snd padded_run))
   = count_query :: statements (history world0) \/
   (success count_result = false /\
    statements (history (snd padded_run)) = statements (history world0))).
Proof.
  split; [reflexivity|]. split; [reflexivity|].
  exact (answer_executes_generated_text scenario_lib env_padded
           scenario_agent (ask "How many customers are active?") world0
           padded_response (snd padded_run) active_question count_query
           count_result "42 customers are active." "2024-01-01T00:00:09"
           eq_refl eq_refl).
Defined.

(** X4: when the executor's result in a bundle is a failure, the insight is
    the fixed error message, the summarizer was not entered, and the request
    made exactly one completion call, the one that generated the query. *)
Theorem failed_execution_answer (lib : PyLib) (env : Env)
        (agent : SQLAgent.Agent) (request : Request) (w : World)
        (resp : Response) (w' : World)
        (q : JValue) (sql : string) (r : QueryResult) (i t : string) :
  ask_question lib env agent request w = (Ok resp, w') ->
  body resp = AnswerBody q sql r i t ->
  success r = false ->
  status resp = 200 /\
  i = SQLAgent.error_insight /\
  completion_calls (history w') = S (completion_calls (history w)) /\
  calls ResultSummarizer (history w') = calls ResultSummarizer (history w).
Proof.
  intros Hrun Hbody Hfail.
  destruct (answer_stages lib env agent request w resp w' q sql r i t
              Hrun Hbody)
    as [Hq [Hs [Hst [w1 [w2 [w3 [Hgen [Hexec [Hins [_ ->]]]]]]]]]].
  split; [assumption|].
  destruct (generate_sql_query_effects lib env agent q w)
    as [res [w1' [Heq [Hc1 [_ [_ [Hs1 _]]]]]]].
  rewrite Hgen in Heq. injection Heq as <- <-.
  destruct (execute_query_effects env agent sql w1)
    as [r' [w2' [Heq [Hc2 [_ [_ [Hs2 _]]]]]]].
  rewrite Hexec in Heq. injection Heq as <- <-.
  destruct (generate_insights_effects lib env q r w2)
    as [text [w3' [Heq [Hc3 [_ [_ [Hs3 _]]]]]]].
  rewrite Hins in Heq. injection Heq as <- <-.
  rewrite Hfail in Hc3, Hs3.
  pose proof (generate_insights_result lib env q r w2) as Hres.
  rewrite Hins, Hfail in Hres. simpl in Hres. injection Hres as ->.
  split; [reflexivity|].
  change (history (after_now w3)) with (EvNow :: history w3).
  change (completion_calls (EvNow :: history w3))
    with (completion_calls (history w3)).
  change (calls ResultSummarizer (EvNow :: history w3))
    with (calls ResultSummarizer (history w3)).
  split; lia.
Qed.

Lemma failed_execution_answer_witness :
  no_table_run = (Ok no_table_response, snd no_table_run) /\
  body no_table_response
  = AnswerBody (JStr "How many orders?") "SELECT * FROM ordrs" failed_result
               SQLAgent.error_insight "2024-01-01T00:00:06" /\
  success failed_result = false /\
  status no_table_response = 200 /\
  SQLAgent.error_insight = SQLAgent.error_insight /\
  completion_calls (history (snd no_table_run))
  = S (completion_calls (history world0)) /\
  calls ResultSummarizer (history (snd no_table_run))
  = calls ResultSummarizer (history world0).
Proof.
  split; [reflexivity|]. split; [reflexivity|]. split; [reflexivity|].
  exact (failed_execution_answer scenario_lib env_no_table scenario_agent
           (ask "How many orders?") world0 no_table_response
           (snd no_table_run) (JStr "How many orders?") "SELECT * FROM ordrs"
           failed_result SQLAgent.error_insight "2024-01-01T00:00:06"
           eq_refl eq_refl eq_refl).
Defined.

(** X5: for a dict body the status-400 error is returned exactly when the
    value under ["question"] (the empty string when the key is missing) is
    falsy.  Any other question, a string of blanks included, enters the
    query generator once and reaches the completion service. *)
Theorem question_required_iff_falsy (lib : PyLib) (env : Env)
        (agent : SQLAgent.Agent) (kvs : list (string * JValue)) (w : World) :
  let request := {| get_json := Ok (JObj kvs) |} in
  let question := match dict_get "question" kvs with
                  | Some v => v
                  | None => JStr ""
                  end in
  exists resp w',
    ask_question lib env agent request w = (Ok resp, w') /\
    if truthy question then
      status resp <> 400 /\
      calls QueryGenerator (history w')
      = S (calls QueryGenerator (history w)) /\
      (completion_calls (history w) < completion_calls (history w'))%nat
    else
      resp = {| body := ErrorBody "Question is required"; status := 400 |} /\
      w' = w.
Proof.
  cbv zeta. rewrite ask_question_cases.
  unfold asked, rejection. cbn [get_json]. cbv zeta.
  set (question := match dict_get "question" kvs with
                   | Some v => v
                   | None => JStr ""
                   end).
  destruct (truthy question).
  2:{ eexists _, _. split; [reflexivity|]. split; reflexivity. }
  destruct (generate_sql_query_effects lib env agent question w)
    as [res [w1 [-> [Hc1 [Hg1 _]]]]].
  destruct (query_truthy res) as [sql|].
  2:{ eexists _, _. split; [reflexivity|]. simpl.
      split; [discriminate|]. split; [assumption | lia]. }
  destruct (execute_query_effects env agent sql w1)
    as [r [w2 [-> [Hc2 [Hg2 _]]]]].
  destruct (generate_insights_effects lib env question r w2)
    as [text [w3 [-> [Hc3 [Hg3 _]]]]].
  eexists _, _. split; [reflexivity|].
  change (history (after_now w3)) with (EvNow :: history w3).
  change (completion_calls (EvNow :: history w3))
    with (completion_calls (history w3)).
  change (calls QueryGenerator (EvNow :: history w3))
    with (calls QueryGenerator (history w3)).
  split; [destruct (json_serializable r); discriminate|]. split; lia.
Qed.

(** ** More on query generation *)

(** X6: the three outcomes of the query generator.  It returns [None]
    exactly when the service raised or sent no choice; otherwise it returns
    the first choice without the white space (Unicode white space included)
    at its two ends: the choice is that text between two runs of white
    space, the text neither starts nor ends with a white space character,
    and it is empty exactly when the choice was white space only.  It never
    raises. *)
Theorem generate_sql_query_outcomes (lib : PyLib) (env : Env)
        (self : SQLAgent.Agent) (question : JValue) (w : World) :
  match fst (SQLAgent.generate_sql_query lib env self question w) with
  | Raise _ => False
  | Ok None =>
      (exists e,
          completion_create env (EvEnter QueryGenerator :: history w)
                            (SQLAgent.sql_request lib self question)
          = Raise e) \/
      completion_create env (EvEnter QueryGenerator :: history w)
                        (SQLAgent.sql_request lib self question)
      = Ok {| choices := [] |}
  | Ok (Some sql_query) =>
      exists text rest,
        completion_create env (EvEnter QueryGenerator :: history w)
                          (SQLAgent.sql_request lib self question)
        = Ok {| choices := text :: rest |} /\
        trimmed_of text sql_query /\
        (sql_query = "" <-> blank text)
  end.
Proof.
  rewrite generate_sql_query_result.
  destruct (completion_create env _ _) as [[[|text rest]]|e]; simpl.
  - now right.
  - exists text, rest. split; [reflexivity|].
    split; [apply strip_trimmed | apply strip_blank].
  - left. now exists e.
Qed.

(** ** More on insight generation *)

(** X7: on a successful result the insight composer enters the summarizer,
    makes exactly one completion call (800 tokens at most, temperature 0.3,
    no stop marker, the prompt built from the question and the summary of
    the rows) and never raises: it returns the first choice trimmed, or,
    when the service raised or sent no choice, the fixed message with the
    number of rows.  It does not reach the store. *)
Theorem generate_insights_success_path (lib : PyLib) (env : Env)
        (question : JValue) (query_results : QueryResult) (w : World) :
  success query_results = true ->
  let req := SQLAgent.insight_request lib question
               (SQLAgent._summarize_data lib (data query_results)) in
  exists text w',
    SQLAgent.generate_insights lib env question query_results w
    = (Ok text, w') /\
    history w' = EvCompletion req :: EvEnter ResultSummarizer
                   :: EvEnter InsightComposer :: history w /\
    max_tokens req = 800 /\ Qeq (temperature req) (3 # 10) /\
    stop req = None /\
    open_conns w' = open_conns w /\
    match completion_create env
            (EvEnter ResultSummarizer :: EvEnter InsightComposer
               :: history w) req with
    | Ok {| choices := choice0 :: _ |} => trimmed_of choice0 text
    | _ => text = "Analysis completed, but I couldn't generate detailed insights. Raw results: "
                  ++ str_of_nat (length (data query_results))
                  ++ " records found."
    end.
Proof.
  intros Hs req.
  unfold SQLAgent.generate_insights. run_py. rewrite Hs. simpl. fold req.
  destruct (completion_create env _ req) as [[[|choice0 rest]]|e]; simpl;
    eexists _, _; (split; [reflexivity|]); simpl;
    repeat (split; [reflexivity|]);
    first [apply strip_trimmed | reflexivity].
Qed.

Lemma generate_insights_success_path_witness :
  success count_result = true /\
  let req := SQLAgent.insight_request scenario_lib active_question
               (SQLAgent._summarize_data scenario_lib (data count_result)) in
  exists text w',
    SQLAgent.generate_insights scenario_lib env_insight_outage active_question
                               count_result world0
    = (Ok text, w') /\
    history w' = EvCompletion req :: EvEnter ResultSummarizer
                   :: EvEnter InsightComposer :: history world0 /\
    max_tokens req = 800 /\ Qeq (temperature req) (3 # 10) /\
    stop req = None /\
    open_conns w' = open_conns world0 /\
    match completion_create env_insight_outage
            (EvEnter ResultSummarizer :: EvEnter InsightComposer
               :: history world0) req with
    | Ok {| choices := choice0 :: _ |} => trimmed_of choice0 text
    | _ => text = "Analysis completed, but I couldn't generate detailed insights. Raw results: "
                  ++ str_of_nat (length (data count_result))
                  ++ " records found."
    end.
Proof.
  split; [reflexivity|].
  exact (generate_insights_success_path scenario_lib env_insight_outage
           active_question count_result world0 eq_refl).
Defined.

(** X8: for a successful result that came from the executor, the fixed
    message the insight composer falls back to reports the result's
    [row_count]. *)
Theorem degraded_insight_reports_row_count (lib : PyLib) (env : Env)
        (self : SQLAgent.Agent) (sql_query : string) (question : JValue)
        (w w1 w2 : World) (r : QueryResult) (e : Exn) :
  SQLAgent.execute_query env self sql_query w = (Ok r, w1) ->
  success r = true ->
  completion_create env
    (EvEnter ResultSummarizer :: EvEnter InsightComposer :: history w2)
    (SQLAgent.insight_request lib question
       (SQLAgent._summarize_data lib (data r)))
  = Raise e ->
  fst (SQLAgent.generate_insights lib env question r w2)
  = Ok (SQLAgent.degraded_insight (row_count r)).
Proof.
  intros Hexec Hs Hservice.
  rewrite generate_insights_result, Hs, Hservice.
  destruct (execute_query_statements env self sql_query w r w1 Hexec)
    as [-> _].
  reflexivity.
Qed.

Lemma degraded_insight_reports_row_count_witness :
  SQLAgent.execute_query env_insight_outage scenario_agent count_query world0
  = (Ok count_result,
     snd (SQLAgent.execute_query env_insight_outage scenario_agent
                                 count_query world0)) /\
  success count_result = true /\
  fst (SQLAgent.generate_insights scenario_lib env_insight_outage
         active_question count_result world0)
  = Ok (SQLAgent.degraded_insight 1).
Proof.
  split; [reflexivity|]. split; [reflexivity|].
  exact (degraded_insight_reports_row_count scenario_lib env_insight_outage
           scenario_agent count_query active_question world0
           (snd (SQLAgent.execute_query env_insight_outage scenario_agent
                   count_query world0))
           world0 count_result {| exn_msg := "service unavailable" |}
           eq_refl eq_refl eq_refl).
Defined.

(** ** More on schema analysis *)

(** X9: when schema analysis meets no failure, the tables of the schema
    are the tables the catalog query reported, each once, in catalog order;
    a table can be looked up in the schema exactly when the catalog
    reported it. *)
Theorem analyze_schema_lists_catalog (env : Env) (path : string) (w : World)
        (built : Schema) (w1 : World) :
  SQLAgent.analyze_schema_try env path w = (Ok built, w1) ->
  exists tables,
    sqlite_master env (EvConnect path (next_conn w) :: history w)
                  "SELECT name FROM sqlite_master WHERE type='table';"
    = Ok tables /\
    SQLAgent._analyze_schema env path w = (Ok built, w1) /\
    keys built = distinct_labels tables /\
    NoDup (keys built) /\
    (forall table,
        In table tables <-> exists info, dict_get table built = Some info).
Proof.
  intros Htry.
  assert (Hrun : SQLAgent._analyze_schema env path w = (Ok built, w1)).
  { unfold SQLAgent._analyze_schema, try_except. now rewrite Htry. }
  revert Htry.
  unfold SQLAgent.analyze_schema_try, bind, connect, query, close, ret.
  destruct (sqlite_connect env _ _); [discriminate|]. simpl.
  destruct (sqlite_master env _ _) as [tables|]; [|discriminate].
  match goal with
  | |- context [for_each tables ?b ?s ?w0] =>
      destruct (for_each tables b s w0) as [[s'|e'] w2] eqn:Hloop
  end; [|discriminate].
  intros H. injection H as <- _.
  apply analyze_loop_keys in Hloop. simpl in Hloop.
  exists tables. split; [reflexivity|]. split; [assumption|].
  split; [exact Hloop|]. split.
  - rewrite Hloop. apply distinct_labels_nodup.
  - intros table. rewrite dict_get_in_keys, Hloop.
    symmetry. apply in_distinct_labels.
Qed.

Lemma analyze_schema_lists_catalog_witness :
  analysis_run = (Ok (SQLAgent.schema_info scenario_agent), snd analysis_run)
  /\
  exists tables,
    sqlite_master env_ok
      (EvConnect "business_data.db" (next_conn world0) :: history world0)
      "SELECT name FROM sqlite_master WHERE type='table';"
    = Ok tables /\
    SQLAgent._analyze_schema env_ok "business_data.db" world0
    = (Ok (SQLAgent.schema_info scenario_agent), snd analysis_run) /\
    keys (SQLAgent.schema_info scenario_agent) = distinct_labels tables /\
    NoDup (keys (SQLAgent.schema_info scenario_agent)) /\
    (forall table,
        In table tables <->
        exists info,
          dict_get table (SQLAgent.schema_info scenario_agent) = Some info).
Proof.
  split; [reflexivity|].
  exact (analyze_schema_lists_catalog env_ok "business_data.db" world0
           (SQLAgent.schema_info scenario_agent) (snd analysis_run) eq_refl).
Defined.

(** A loop keeps what each of its passes keeps in the world, whether it
    ends or raises. *)
Lemma for_each_world {A S} (P : World -> Prop) (body : S -> A -> M S) :
  (forall s x w out w', body s x w = (out, w') -> P w -> P w') ->
  forall xs s w out w', for_each xs body s w = (out, w') -> P w -> P w'.
Proof.
  intros Hbody. induction xs as [|x xs IH]; intros s w out w'; simpl.
  - unfold ret. intros H. now injection H as _ <-.
  - unfold bind. destruct (body s x w) as [[s1|e] w1] eqn:Hb.
    + intros H Hw. apply (IH _ _ _ _ H). eapply Hbody; eassumption.
    + intros H Hw. injection H as _ <-. eapply Hbody; eassumption.
Qed.

Lemma analyze_table_conns (env : Env) (conn : nat) (open : list nat)
      (next : nat) (schema : Schema) (table : string) (w : World)
      (out : Result Schema) (w' : World) :
  SQLAgent.analyze_table env conn schema table w = (out, w') ->
  open_conns w = open /\ next_conn w = next ->
  open_conns w' = open /\ next_conn w' = next.
Proof.
  unfold SQLAgent.analyze_table, bind, query, ret. simpl.
  destruct (sqlite_table_info env _ _); simpl.
  - destruct (sqlite_fetchall env _ _); simpl;
      intros H; injection H as _ <-; simpl; auto.
  - intros H. injection H as _ <-. simpl. auto.
Qed.

(** X10: schema analysis closes the connection it opened only when nothing
    failed.  When a statement fails after the connection was opened, the
    connection is still open when the (empty) schema is returned; when the
    connection could not be opened, the open connections are as before. *)
Theorem analyze_schema_connection (env : Env) (path : string) (w : World) :
  open_conns (snd (SQLAgent._analyze_schema env path w))
  = match fst (SQLAgent.analyze_schema_try env path w) with
    | Ok _ => remove_conn (next_conn w) (open_conns w)
    | Raise _ =>
        match sqlite_connect env (history w) path with
        | Some _ => open_conns w
        | None => next_conn w :: open_conns w
        end
    end.
Proof.
  unfold SQLAgent._analyze_schema, try_except, SQLAgent.analyze_schema_try,
    bind, connect.
  destruct (sqlite_connect env (history w) path) as [e|]; [reflexivity|].
  rewrite !query_run. cbn [history open_conns next_conn].
  destruct (sqlite_master env _ _) as [tables|e]; [|reflexivity].
  match goal with
  | |- context [for_each tables ?b ?s ?w0] =>
      destruct (for_each tables b s w0) as [out w2] eqn:Hloop;
      pose proof (for_each_world
                    (fun w1 => open_conns w1 = next_conn w :: open_conns w
                               /\ next_conn w1 = S (next_conn w))
                    b) as Hkeep
  end.
  destruct (Hkeep (fun s x w0 out0 w0' =>
                     analyze_table_conns env _ _ _ s x w0 out0 w0')
                  _ _ _ _ _ Hloop (conj eq_refl eq_refl)) as [Hopen _].
  destruct out as [schema|e]; simpl.
  - rewrite Hopen. simpl. rewrite Nat.eqb_refl. reflexivity.
  - exact Hopen.
Qed.

(** X11: building the agent never raises.  When schema analysis fails, the
    agent still comes up, with the given path and an empty schema:
    [GET /api/schema] then answers with status 200 and an empty mapping,
    the schema text is empty, and the query prompt is sent with an empty
    schema section. *)
Theorem init_survives_failed_analysis (lib : PyLib) (env : Env)
        (path : string) (w : World) (e : Exn) (question : JValue) :
  fst (SQLAgent.analyze_schema_try env path w) = Raise e ->
  exists agent w1,
    SQLAgent.__init__ env path w = (Ok agent, w1) /\
    SQLAgent.db_path agent = path /\
    SQLAgent.schema_info agent = [] /\
    get_schema agent w1
    = (Ok {| schema_body := []; schema_status := 200 |}, w1) /\
    SQLAgent._format_schema_for_prompt lib agent = "" /\
    prompt (SQLAgent.sql_request lib agent question)
    = SQLAgent.sql_prompt "" (fstr lib question).
Proof.
  intros Hfail.
  unfold SQLAgent.__init__, SQLAgent._analyze_schema, try_except.
  unfold bind at 1.
  destruct (SQLAgent.analyze_schema_try env path w) as [[s|e0] w0];
    [discriminate|].
  unfold bind, py_print, emit, ret. simpl.
  eexists _, _. split; [reflexivity|]. simpl. repeat split.
Qed.

Lemma init_survives_failed_analysis_witness :
  fst (SQLAgent.analyze_schema_try env_malformed "business_data.db" world0)
  = Raise {| exn_msg := "database disk image is malformed" |} /\
  exists agent w1,
    SQLAgent.__init__ env_malformed "business_data.db" world0
    = (Ok agent, w1) /\
    SQLAgent.db_path agent = "business_data.db" /\
    SQLAgent.schema_info agent = [] /\
    get_schema agent w1
    = (Ok {| schema_body := []; schema_status := 200 |}, w1) /\
    SQLAgent._format_schema_for_prompt scenario_lib agent = "" /\
    prompt (SQLAgent.sql_request scenario_lib agent active_question)
    = SQLAgent.sql_prompt "" (fstr scenario_lib active_question).
Proof.
  split; [reflexivity|].
  exact (init_survives_failed_analysis scenario_lib env_malformed
           "business_data.db" world0
           {| exn_msg := "database disk image is malformed" |}
           active_question eq_refl).
Defined.

(** ** More on result rows *)

Lemma dict_get_dict_set_same {V} (k : string) (v : V) (d : pydict V) :
  dict_get k (dict_set k v d) = Some v.
Proof.
  induction d as [|[k0 v0] d IH]; simpl.
  - now rewrite String.eqb_refl.
  - destruct (String.eqb_spec k k0) as [->|Hne]; simpl.
    + now rewrite String.eqb_refl.
    + destruct (String.eqb_spec k k0); [contradiction | exact IH].
Qed.

Lemma dict_get_dict_set_other {V} (k k' : string) (v : V) (d : pydict V) :
  k <> k' -> dict_get k (dict_set k' v d) = dict_get k d.
Proof.
  intros Hne. induction d as [|[k0 v0] d IH]; simpl.
  - destruct (String.eqb_spec k k'); [contradiction | reflexivity].
  - destruct (String.eqb_spec k' k0) as [->|Hne0]; simpl.
    + destruct (String.eqb_spec k k0); [contradiction | reflexivity].
    + destruct (String.eqb_spec k k0); [reflexivity | exact IH].
Qed.

Lemma dict_get_fold_other {V} (k : string) (ps : list (string * V))
      (d : pydict V) :
  ~ In k (map fst ps) ->
  dict_get k (fold_left (fun d kv => dict_set (fst kv) (snd kv) d) ps d)
  = dict_get k d.
Proof.
  revert d. induction ps as [|[k0 v0] ps IH]; intros d Hnin; simpl.
  - reflexivity.
  - rewrite IH by (intros Hin; apply Hnin; now right).
    apply dict_get_dict_set_other. intros ->. apply Hnin. now left.
Qed.

Lemma in_fst_combine {A B} (l : list A) (l' : list B) (x : A) :
  In x (map fst (combine l l')) -> In x l.
Proof.
  intros Hin. apply in_map_iff in Hin. destruct Hin as [[a b] [<- Hin]].
  simpl. eapply in_combine_l. exact Hin.
Qed.

(** The value a record holds under the label of column [c] is the cell of
    that column, when no later column has the same label. *)
Lemma record_cell (cell : nat -> value) (cols : list string) :
  forall (start c : nat) (d : record),
    (c < length cols)%nat ->
    ~ In (nth c cols "") (skipn (S c) cols) ->
    dict_get (nth c cols "")
      (fold_left (fun d kv => dict_set (fst kv) (snd kv) d)
                 (combine cols (map cell (seq start (length cols)))) d)
    = Some (cell (start + c)%nat).
Proof.
  induction cols as [|k cols IH]; intros start c d Hc Hlast; simpl in Hc.
  - lia.
  - cbn [length seq map combine fold_left fst snd].
    destruct c as [|c].
    + cbn [nth] in *. cbn [skipn] in Hlast.
      rewrite dict_get_fold_other.
      * rewrite dict_get_dict_set_same. now rewrite Nat.add_0_r.
      * intros Hin. apply Hlast. eapply in_fst_combine. exact Hin.
    + cbn [nth]. rewrite (IH (S start) c).
      * f_equal. f_equal. lia.
      * lia.
      * exact Hlast.
Qed.

(** X12: in a successful result, row [i] maps the label of column [c] to
    the cell the frame has at row [i] and column [c], unless a later column
    carries the same label (then the later column's cell is kept).  With
    distinct labels every cell of the frame is in the rows. *)
Theorem execute_query_rows_hold_cells (env : Env) (self : SQLAgent.Agent)
        (sql_query : string) (w : World) (r : QueryResult) (w' : World) :
  SQLAgent.execute_query env self sql_query w = (Ok r, w') ->
  success r = true ->
  exists df,
    read_sql_query env
      (EvConnect (SQLAgent.db_path self) (next_conn w)
         :: EvEnter QueryExecutor :: history w) sql_query = Ok df /\
    columns r = df_columns df /\
    row_count r = df_len df /\
    forall i c,
      (i < row_count r)%nat -> (c < length (columns r))%nat ->
      ~ In (nth c (columns r) "") (skipn (S c) (columns r)) ->
      exists rec,
        nth_error (data r) i = Some rec /\
        dict_get (nth c (columns r) "") rec = Some (df_cell df i c).
Proof.
  unfold SQLAgent.execute_query. run_py.
  destruct (sqlite_connect env _ _) as [e|]; simpl.
  - intros H Hs. injection H as <- _. discriminate.
  - destruct (read_sql_query env _ _) as [df|e]; simpl.
    + intros H _. injection H as <- _. cbn [data columns row_count].
      exists df. repeat split.
      intros i c Hi Hc Hlast.
      exists (dict_of_pairs (combine (df_columns df) (df_row df i))).
      split.
      * unfold to_dict_records. rewrite nth_error_map, nth_error_seq.
        destruct (Nat.ltb_spec i (df_len df)); [reflexivity | lia].
      * unfold dict_of_pairs, df_row.
        apply (record_cell (df_cell df i) (df_columns df) 0 c []); assumption.
    + intros H Hs. injection H as <- _. discriminate.
Qed.

Lemma execute_query_rows_hold_cells_witness :
  join_run = (Ok join_result, snd join_run) /\
  success join_result = true /\
  exists df,
    read_sql_query env_join
      (EvConnect (SQLAgent.db_path scenario_agent) (next_conn world0)
         :: EvEnter QueryExecutor :: history world0) join_query = Ok df /\
    columns join_result = df_columns df /\
    row_count join_result = df_len df /\
    forall i c,
      (i < row_count join_result)%nat ->
      (c < length (columns join_result))%nat ->
      ~ In (nth c (columns join_result) "")
           (skipn (S c) (columns join_result)) ->
      exists rec,
        nth_error (data join_result) i = Some rec /\
        dict_get (nth c (columns join_result) "") rec
        = Some (df_cell df i c).
Proof.
  split; [reflexivity|]. split; [reflexivity|].
  exact (execute_query_rows_hold_cells env_join scenario_agent join_query
           world0 join_result (snd join_run) eq_refl eq_refl).
Defined.

(** With a repeated label a record has fewer keys than the result has
    columns, and holds the cell of the last column with that label. *)
Example join_rows_keep_last_id :
  to_dict_records join_frame
  = [ [("id", VInt 2); ("nm", VInt 1)];
      [("id", VInt 12); ("nm", VInt 11)] ].
Proof. reflexivity. Qed.

(** ** More on the summary and the schema text *)

Lemma execute_query_rows_share_keys (env : Env) (self : SQLAgent.Agent)
      (sql_query : string) (w : World) (r : QueryResult) (w' : World) :
  SQLAgent.execute_query env self sql_query w = (Ok r, w') ->
  Forall (fun rec : record => keys rec = distinct_labels (columns r))
         (data r).
Proof.
  unfold SQLAgent.execute_query. run_py.
  destruct (sqlite_connect env _ _) as [e|]; simpl.
  - intros H. injection H as <- _. constructor.
  - destruct (read_sql_query env _ _) as [df|e]; simpl;
      intros H; injection H as <- _; cbn [data columns].
    + apply to_dict_records_share_keys.
    + constructor.
Qed.

(** X13: the summary of a non-empty result of the executor gives the
    result's [row_count], lists the column names of the result, each once,
    in their order, and gives statistics for at most 3 columns, all of them
    columns of the result. *)
Theorem summary_of_executor_result (lib : PyLib) (env : Env)
        (self : SQLAgent.Agent) (sql_query : string) (w : World)
        (r : QueryResult) (w' : World) :
  SQLAgent.execute_query env self sql_query w = (Ok r, w') ->
  data r <> [] ->
  exists reported : list string,
    reported = firstn 3 (SQLAgent.numeric_cols lib (data r)) /\
    (length reported <= 3)%nat /\
    (forall col, In col reported -> In col (columns r)) /\
    SQLAgent._summarize_data lib (data r)
    = "Dataset contains " ++ str_of_nat (row_count r) ++ " records\n"
      ++ "Columns: " ++ String.concat ", " (distinct_labels (columns r))
      ++ "\n"
      ++ match reported with
         | [] => ""
         | _ => "\nNumeric summaries:\n"
                ++ join_all (map (SQLAgent.stat_line lib (data r)) reported)
         end.
Proof.
  intros Hexec Hne.
  pose proof (execute_query_rows_share_keys env self sql_query w r w' Hexec)
    as Hkeys.
  destruct (execute_query_statements env self sql_query w r w' Hexec)
    as [Hcount _].
  pose proof (execute_query_frame_columns env self sql_query w r w' Hexec Hne)
    as Hframe.
  exists (firstn 3 (SQLAgent.numeric_cols lib (data r))).
  split; [reflexivity|]. split; [apply firstn_le_length|]. split.
  - intros col Hin.
    assert (Hnum : In col (SQLAgent.numeric_cols lib (data r))).
    { rewrite <- (firstn_skipn 3 (SQLAgent.numeric_cols lib (data r))).
      apply in_or_app. now left. }
    unfold SQLAgent.numeric_cols in Hnum. apply filter_In in Hnum.
    destruct Hnum as [Hnum _]. rewrite Hframe in Hnum.
    now apply in_distinct_labels.
  - rewrite Hcount.
    destruct (data r) as [|first rest] eqn:Hdata; [contradiction|].
    apply Forall_cons_iff in Hkeys. destruct Hkeys as [Hfirst _].
    rewrite <- Hfirst.
    unfold SQLAgent._summarize_data.
    destruct (SQLAgent.numeric_cols lib (first :: rest)) as [|col cols].
    + change (0 <? length (@nil string))%nat with false. cbv iota.
      change (firstn 3 (@nil string)) with (@nil string). cbv iota.
      rewrite !append_assoc. reflexivity.
    + change (0 <? length (col :: cols))%nat with true. cbv iota.
      rewrite stat_loop_pieces.
      change (firstn 3 (col :: cols)) with (col :: firstn 2 cols). cbv iota.
      rewrite !append_assoc. reflexivity.
Qed.

Lemma summary_of_executor_result_witness :
  join_run = (Ok join_result, snd join_run) /\
  data join_result <> [] /\
  exists reported : list string,
    reported = firstn 3 (SQLAgent.numeric_cols scenario_lib (data join_result))
    /\
    (length reported <= 3)%nat /\
    (forall col, In col reported -> In col (columns join_result)) /\
    SQLAgent._summarize_data scenario_lib (data join_result)
    = "Dataset contains " ++ str_of_nat (row_count join_result)
      ++ " records\n"
      ++ "Columns: "
      ++ String.concat ", " (distinct_labels (columns join_result))
      ++ "\n"
      ++ match reported with
         | [] => ""
         | _ => "\nNumeric summaries:\n"
                ++ join_all (map (SQLAgent.stat_line scenario_lib
                                                     (data join_result))
                                 reported)
         end.
Proof.
  assert (Hne : data join_result <> []) by discriminate.
  split; [reflexivity|]. split; [exact Hne|].
  exact (summary_of_executor_result scenario_lib env_join scenario_agent
           join_query world0 join_result (snd join_run) eq_refl Hne).
Defined.

Lemma column_pieces_view (cols1 cols2 : list ColumnInfo) :
  map (fun col => (col_name col, col_type col)) cols1
  = map (fun col => (col_name col, col_type col)) cols2 ->
  map column_piece cols1 = map column_piece cols2.
Proof.
  revert cols2. induction cols1 as [|c1 cols1 IH]; intros [|c2 cols2] H;
    simpl in *; try discriminate; [reflexivity|].
  injection H as Hn Ht Hrest. unfold column_piece at 1 3.
  rewrite Hn, Ht. f_equal. now apply IH.
Qed.

Lemma sample_piece_view (lib : PyLib) (s1 s2 : list (list value)) :
  hd_error s1 = hd_error s2 -> sample_piece lib s1 = sample_piece lib s2.
Proof.
  destruct s1, s2; simpl; intros H; try discriminate; [reflexivity|].
  now injection H as ->.
Qed.

(** X14: the schema text is a function of the table names, of the name and
    type of each column and of the first sample row of each table.  The
    nullability flags and the sample rows after the first never reach the
    prompt. *)
Theorem format_schema_depends_on_view (lib : PyLib)
        (agent1 agent2 : SQLAgent.Agent) :
  prompt_view (SQLAgent.schema_info agent1)
  = prompt_view (SQLAgent.schema_info agent2) ->
  SQLAgent._format_schema_for_prompt lib agent1
  = SQLAgent._format_schema_for_prompt lib agent2.
Proof.
  rewrite !format_schema_pieces.
  generalize (SQLAgent.schema_info agent1) (SQLAgent.schema_info agent2).
  intros l. induction l as [|[t1 i1] l IH]; intros [|[t2 i2] l2] H; simpl in *;
    try discriminate; [reflexivity|].
  injection H as Ht Hcols Hsample Hrest.
  rewrite (IH l2 Hrest). f_equal.
  unfold table_piece. simpl. subst t2.
  now rewrite (column_pieces_view _ _ Hcols), (sample_piece_view lib _ _ Hsample).
Qed.

Lemma format_schema_depends_on_view_witness :
  prompt_view (SQLAgent.schema_info scenario_agent)
  = prompt_view (SQLAgent.schema_info scenario_agent') /\
  SQLAgent.schema_info scenario_agent <> SQLAgent.schema_info scenario_agent' /\
  SQLAgent._format_schema_for_prompt scenario_lib scenario_agent
  = SQLAgent._format_schema_for_prompt scenario_lib scenario_agent'.
Proof.
  split; [reflexivity|]. split; [discriminate|].
  apply (format_schema_depends_on_view scenario_lib scenario_agent
           scenario_agent').
  reflexivity.
Defined.

Lemma analyze_loop_statements (env : Env) (conn : nat)
      (tables : list string) :
  forall (schema : Schema) (w : World) (schema' : Schema) (w' : World),
    for_each tables (SQLAgent.analyze_table env conn) schema w
    = (Ok schema', w') ->
    statements (history w')
    = (rev (flat_map table_statements tables) ++ statements (history w))%list.
Proof.
  induction tables as [|table tables IH]; intros schema w schema' w'; simpl.
  - unfold ret. intros H. now injection H as _ <-.
  - unfold bind at 1.
    destruct (SQLAgent.analyze_table env conn schema table w)
      as [[s1|e] w1] eqn:Hstep; [|discriminate].
    intros Hrest. rewrite (IH _ _ _ _ Hrest).
    assert (Hw1 : statements (history w1)
                  = ("SELECT * FROM " ++ table ++ " LIMIT 5")
                      :: ("PRAGMA table_info(" ++ table ++ ")")
                      :: statements (history w)).
    { revert Hstep. unfold SQLAgent.analyze_table, bind, query, ret. simpl.
      destruct (sqlite_table_info env _ _); [|discriminate].
      destruct (sqlite_fetchall env _ _); [|discriminate].
      intros H. now injection H as _ <-. }
    rewrite Hw1. simpl. rewrite <- !app_assoc. reflexivity.
Qed.

(** X15: when schema analysis meets no failure, the statements it sent are,
    in this order, the catalog query and then, for each reported table in
    catalog order, [PRAGMA table_info(<name>)] and
    [SELECT * FROM <name> LIMIT 5], the table name being put into the text
    as it is. *)
Theorem analyze_schema_statements (env : Env) (path : string) (w : World)
        (built : Schema) (w1 : World) :
  SQLAgent.analyze_schema_try env path w = (Ok built, w1) ->
  exists tables,
    sqlite_master env (EvConnect path (next_conn w) :: history w)
                  "SELECT name FROM sqlite_master WHERE type='table';"
    = Ok tables /\
    statements (history w1)
    = (rev ("SELECT name FROM sqlite_master WHERE type='table';"
              :: flat_map table_statements tables)
       ++ statements (history w))%list.
Proof.
  unfold SQLAgent.analyze_schema_try, bind, connect.
  destruct (sqlite_connect env _ _); [discriminate|].
  rewrite query_run. cbn [history open_conns next_conn].
  destruct (sqlite_master env _ _) as [tables|]; [|discriminate].
  match goal with
  | |- context [for_each tables ?b ?s ?w0] =>
      destruct (for_each tables b s w0) as [[s'|e'] w2] eqn:Hloop
  end; [|discriminate].
  unfold close, ret. intros H. injection H as _ <-.
  apply analyze_loop_statements in Hloop.
  exists tables. split; [reflexivity|].
  cbn [history statements] in *. rewrite Hloop.
  cbn [rev]. rewrite <- app_assoc. reflexivity.
Qed.

Lemma analyze_schema_statements_witness :
  analysis_run = (Ok (SQLAgent.schema_info scenario_agent), snd analysis_run)
  /\
  exists tables,
    sqlite_master env_ok
      (EvConnect "business_data.db" (next_conn world0) :: history world0)
      "SELECT name FROM sqlite_master WHERE type='table';"
    = Ok tables /\
    statements (history (snd analysis_run))
    = (rev ("SELECT name FROM sqlite_master WHERE type='table';"
              :: flat_map table_statements tables)
       ++ statements (history world0))%list.
Proof.
  split; [reflexivity|].
  exact (analyze_schema_statements env_ok "business_data.db" world0
           (SQLAgent.schema_info scenario_agent) (snd analysis_run) eq_refl).
Defined.

(** X16: a request whose body cannot be read, or is not a dict, is answered
    with status 500 and a server-error text (the text of the exception, or
    of the attribute error on the value's type), not with the status-400
    error; no component runs. *)
Theorem unreadable_body_is_server_error (lib : PyLib) (env : Env)
        (agent : SQLAgent.Agent) (request : Request) (w : World) :
  match get_json request with
  | Raise e =>
      ask_question lib env agent request w
      = (Ok {| body := ErrorBody ("Server error: " ++ exn_msg e);
               status := 500 |}, w)
  | Ok (JObj _) => True
  | Ok other =>
      ask_question lib env agent request w
      = (Ok {| body := ErrorBody ("Server error: '" ++ py_type_name other
                                  ++ "' object has no attribute 'get'");
               status := 500 |}, w)
  end.
Proof.
  rewrite ask_question_cases. unfold asked, rejection.
  destruct (get_json request) as [[]|e]; try reflexivity; exact I.
Qed.
